(** * Budget tracker: the record store and the budget summary

    A shallow embedding of [budget_tracker_app.py].  The SQLite file
    [expense_tracker.db] is a record of four tables; every table is the list
    of its rows in rowid order, which is also insertion order as long as a
    new row receives the largest rowid (see [next_id]).  Columns declared
    [REAL] hold binary64 values, the type of the Python floats bound to
    them, so amounts are primitive floats and every comparison is the IEEE
    one.  A bound float is stored as it is except that -0.0 comes back as
    0.0 ([sql_real]); a NaN would be stored as NULL, and a NULL amount,
    which only the input text [nan] can produce, is outside the model: what
    is said of a written amount is said of a [storable] one.  Each SQL
    statement of the source is one function on the store; the Python
    functions thread the store through a small state monad that plays the
    part of the cursor. *)

From Stdlib Require Import Floats List String ZArith Bool Lia.
Import ListNotations.
Set Warnings "-inexact-float".
Open Scope string_scope.
Open Scope float_scope.
Open Scope list_scope.

(** ** Rows and tables *)

Record expense_row := mk_expense
  { e_id : Z; e_category : string; e_amount : float; e_due_date : string }.

Record income_row := mk_income
  { i_id : Z; i_category : string; i_amount : float; i_pay_date : string }.

Record budget_row := mk_budget
  { b_id : Z; b_category : string; b_budget_amount : float }.

Record goal_row := mk_goal
  { g_id : Z; g_goal : string; g_target_amount : float;
    g_saved_amount : float }.

Record store := mk_store
  { expenses : list expense_row;
    income : list income_row;
    budgets : list budget_row;
    financial_goals : list goal_row }.

(** ** The cursor monad *)

Definition DB (A : Type) : Type := store -> A * store.

Definition ret {A} (a : A) : DB A := fun s => (a, s).

Definition bind {A B} (m : DB A) (k : A -> DB B) : DB B :=
  fun s => let (a, s') := m s in k a s'.

Notation "x <- m ;; k" := (bind m (fun x => k))
  (at level 61, m at next level, right associativity).
Notation "m ;;; k" := (bind m (fun _ => k))
  (at level 61, right associativity).

(** [cursor.execute] of a SELECT followed by a fetch: the rows are read and
    the store is left as it is. *)
Definition query {A} (q : store -> A) : DB A := fun s => (q s, s).

(** [cursor.execute] of an INSERT, UPDATE or DELETE. *)
Definition exec (u : store -> store) : DB unit := fun s => (tt, u s).

(** [cursor.fetchone()]: the first row of the result set, or [None]. *)
Definition fetchone {A} (rows : list A) : option A := hd_error rows.

(** A Python [for] loop whose body runs cursor statements and updates an
    accumulator. *)
Fixpoint for_each {A B} (xs : list A) (body : A -> B -> DB B) (acc : B)
  : DB B :=
  match xs with
  | [] => ret acc
  | x :: xs' => acc' <- body x acc ;; for_each xs' body acc'
  end.

(** ** SQL aggregates and Python truthiness *)

(** [SUM(col)]: NULL over no rows, otherwise the running sum from 0.0.  (A
    sum that is not a number, as over inf and -inf, SQLite hands over as
    NULL; like the NULL amounts this lies outside the model.) *)
Definition sql_sum (l : list float) : option float :=
  match l with
  | [] => None
  | _ => Some (fold_left PrimFloat.add l 0)
  end.

(** [x or 0.0]: [None] and zero are falsy. *)
Definition or_zero (x : option float) : float :=
  match x with
  | None => 0
  | Some v => if PrimFloat.eqb v 0 then 0 else v
  end.

(** [SELECT DISTINCT col]: every text once, at its first occurrence. *)
Fixpoint distinct (l : list string) : list string :=
  match l with
  | [] => []
  | x :: l' => x :: filter (fun y => negb (String.eqb y x)) (distinct l')
  end.

(** Texts in ascending order of their bytes, the order in which SQLite's
    GROUP BY hands over its groups. *)
Fixpoint insert_text (c : string) (l : list string) : list string :=
  match l with
  | [] => [c]
  | x :: l' => if String.leb c x then c :: l else x :: insert_text c l'
  end.

Definition sort_texts (l : list string) : list string :=
  fold_right insert_text [] l.

(** AUTOINCREMENT-free [INTEGER PRIMARY KEY]: one more than the largest
    rowid in use, 1 in an empty table.  This is the rowid of a new row as
    long as the rowids in use are positive and below [max_rowid]; in a table
    that holds [max_rowid] SQLite draws an unused rowid at random, which
    this function does not describe. *)
Definition next_id (ids : list Z) : Z := fold_right Z.max 0%Z ids + 1.

(** The largest rowid, 2^63 - 1. *)
Definition max_rowid : Z := 9223372036854775807%Z.

(** Rowids as the program's own inserts produce them, with room for one
    more. *)
Definition rowids_in_range (ids : list Z) : Prop :=
  Forall (fun i => (0 < i < max_rowid)%Z) ids.

(** What a [REAL] column gives back for the float bound to it: the value
    itself, and 0.0 for -0.0. *)
Definition sql_real (x : float) : float :=
  if PrimFloat.eqb x 0 then 0 else x.

(** The floats a [REAL] column can hold: every one but NaN, which is stored
    as NULL. *)
Definition storable (x : float) : Prop := PrimFloat.eqb x x = true.

(** ** The SQL statements of the source *)

Module Sql.

(** [SELECT category FROM expenses WHERE category = ?] *)
Definition select_expense_category (c : string) (s : store) : list string :=
  map e_category
    (filter (fun r => String.eqb (e_category r) c) (expenses s)).

(** [SELECT category FROM income WHERE category = ?] *)
Definition select_income_category (c : string) (s : store) : list string :=
  map i_category (filter (fun r => String.eqb (i_category r) c) (income s)).

(** [SELECT DISTINCT category FROM expenses] *)
Definition select_distinct_expense_categories (s : store) : list string :=
  distinct (map e_category (expenses s)).

(** [SELECT DISTINCT category FROM income] *)
Definition select_distinct_income_categories (s : store) : list string :=
  distinct (map i_category (income s)).

(** [SELECT DISTINCT goal FROM financial_goals] *)
Definition select_distinct_goals (s : store) : list string :=
  distinct (map g_goal (financial_goals s)).

(** [SELECT SUM(amount) FROM income] *)
Definition select_sum_income (s : store) : option float :=
  sql_sum (map i_amount (income s)).

(** [SELECT SUM(amount) FROM expenses] *)
Definition select_sum_expenses (s : store) : option float :=
  sql_sum (map e_amount (expenses s)).

(** [SELECT SUM(budget_amount) FROM budgets] *)
Definition select_sum_budgets (s : store) : option float :=
  sql_sum (map b_budget_amount (budgets s)).

(** The sum of one group of [GROUP BY category]. *)
Definition group_sum (c : string) (rows : list expense_row) : float :=
  fold_left PrimFloat.add
    (map e_amount (filter (fun r => String.eqb (e_category r) c) rows)) 0.

(** [SELECT category, SUM(amount) FROM expenses GROUP BY category]: one
    group per category text, in ascending order of the texts. *)
Definition select_expenses_by_category (s : store) : list (string * float) :=
  map (fun c => (c, group_sum c (expenses s)))
    (sort_texts (distinct (map e_category (expenses s)))).

(** [SELECT budget_amount FROM budgets WHERE category = ?] *)
Definition select_budget_amount (c : string) (s : store) : list float :=
  map b_budget_amount
    (filter (fun r => String.eqb (b_category r) c) (budgets s)).

(** The condition [saved_amount >= target_amount] on a goal row. *)
Definition goal_achieved (r : goal_row) : bool :=
  PrimFloat.leb (g_target_amount r) (g_saved_amount r).

(** [SELECT goal FROM financial_goals WHERE saved_amount >= target_amount] *)
Definition select_achieved_goals (s : store) : list string :=
  map g_goal (filter goal_achieved (financial_goals s)).

(** [SELECT * FROM financial_goals WHERE goal = ?] *)
Definition select_goal (g : string) (s : store) : list goal_row :=
  filter (fun r => String.eqb (g_goal r) g) (financial_goals s).

(** [INSERT INTO expenses (category, amount, due_date) VALUES (?, ?, ?)] *)
Definition insert_into_expenses (c : string) (a : float) (d : string)
    (s : store) : store :=
  mk_store
    (expenses s
       ++ [mk_expense (next_id (map e_id (expenses s))) c (sql_real a) d])
    (income s) (budgets s) (financial_goals s).

(** [INSERT INTO income (category, amount, pay_date) VALUES (?, ?, ?)] *)
Definition insert_into_income (c : string) (a : float) (d : string)
    (s : store) : store :=
  mk_store (expenses s)
    (income s
       ++ [mk_income (next_id (map i_id (income s))) c (sql_real a) d])
    (budgets s) (financial_goals s).

(** [INSERT INTO budgets (category, budget_amount) VALUES (?, ?)] *)
Definition insert_into_budgets (c : string) (a : float) (s : store) : store :=
  mk_store (expenses s) (income s)
    (budgets s
       ++ [mk_budget (next_id (map b_id (budgets s))) c (sql_real a)])
    (financial_goals s).

(** [INSERT INTO financial_goals (goal, target_amount, saved_amount)
     VALUES (?, ?, ?)] *)
Definition insert_into_financial_goals (g : string) (t v : float)
    (s : store) : store :=
  mk_store (expenses s) (income s) (budgets s)
    (financial_goals s
       ++ [mk_goal (next_id (map g_id (financial_goals s))) g (sql_real t)
             (sql_real v)]).

(** [UPDATE expenses SET amount = ? WHERE category = ?] *)
Definition update_expenses (a : float) (c : string) (s : store) : store :=
  mk_store
    (map (fun r => if String.eqb (e_category r) c
                   then mk_expense (e_id r) (e_category r) (sql_real a)
                          (e_due_date r)
                   else r) (expenses s))
    (income s) (budgets s) (financial_goals s).

(** [UPDATE income SET amount = ? WHERE category = ?] *)
Definition update_income (a : float) (c : string) (s : store) : store :=
  mk_store (expenses s)
    (map (fun r => if String.eqb (i_category r) c
                   then mk_income (i_id r) (i_category r) (sql_real a)
                          (i_pay_date r)
                   else r) (income s))
    (budgets s) (financial_goals s).

(** [UPDATE budgets SET budget_amount = ? WHERE category = ?] *)
Definition update_budgets (a : float) (c : string) (s : store) : store :=
  mk_store (expenses s) (income s)
    (map (fun r => if String.eqb (b_category r) c
                   then mk_budget (b_id r) (b_category r) (sql_real a)
                   else r) (budgets s))
    (financial_goals s).

(** [UPDATE financial_goals SET saved_amount = ? WHERE goal = ?] *)
Definition update_financial_goals (v : float) (g : string) (s : store)
  : store :=
  mk_store (expenses s) (income s) (budgets s)
    (map (fun r => if String.eqb (g_goal r) g
                   then mk_goal (g_id r) (g_goal r) (g_target_amount r)
                          (sql_real v)
                   else r) (financial_goals s)).

(** [DELETE FROM expenses WHERE category = ?] *)
Definition delete_from_expenses (c : string) (s : store) : store :=
  mk_store
    (filter (fun r => negb (String.eqb (e_category r) c)) (expenses s))
    (income s) (budgets s) (financial_goals s).

(** [DELETE FROM income WHERE category = ?] *)
Definition delete_from_income (c : string) (s : store) : store :=
  mk_store (expenses s)
    (filter (fun r => negb (String.eqb (i_category r) c)) (income s))
    (budgets s) (financial_goals s).

(** [DELETE FROM budgets WHERE category = ?] *)
Definition delete_from_budgets (c : string) (s : store) : store :=
  mk_store (expenses s) (income s)
    (filter (fun r => negb (String.eqb (b_category r) c)) (budgets s))
    (financial_goals s).

(** [DELETE FROM financial_goals WHERE goal = ?] *)
Definition delete_from_financial_goals (g : string) (s : store) : store :=
  mk_store (expenses s) (income s) (budgets s)
    (filter (fun r => negb (String.eqb (g_goal r) g)) (financial_goals s)).

End Sql.

(** ** The Python functions *)

(** What a store function prints when it returns.  [DuplicateCategory] is the
    line "Category already exists. Please update the existing category or
    use a different name."; [Failed] is the "Error: ..." line of the blanket
    [except Exception] handlers. *)
Inductive report : Type :=
| ExpenseAdded | IncomeAdded | DuplicateCategory
| ExpenseUpdated | IncomeUpdated | ExpenseDeleted | IncomeDeleted
| BudgetUpdated | BudgetSet
| GoalSet | GoalUpdated | GoalDeleted
| Failed.

(** [insert_expense(expense_category, expense_amount, expense_due_date)];
    the date arrives as its ISO text [date_str]. *)
Definition insert_expense (expense_category : string)
    (expense_amount : float) (date_str : string) : DB report :=
  rows <- query (Sql.select_expense_category expense_category) ;;
  match fetchone rows with
  | Some _ => ret DuplicateCategory
  | None =>
      exec (Sql.insert_into_expenses expense_category expense_amount
              date_str) ;;;
      ret ExpenseAdded
  end.

(** [update_expense()], after the category and the amount have been read. *)
Definition update_expense (expense_category : string) (new_amount : float)
  : DB report :=
  exec (Sql.update_expenses new_amount expense_category) ;;;
  ret ExpenseUpdated.

(** [delete_expense()], after the category has been read. *)
Definition delete_expense (category : string) : DB report :=
  exec (Sql.delete_from_expenses category) ;;;
  exec (Sql.delete_from_budgets category) ;;;
  ret ExpenseDeleted.

(** [insert_income(income_category, income_amount, income_pay_date)] *)
Definition insert_income (income_category : string) (income_amount : float)
    (date_str : string) : DB report :=
  rows <- query (Sql.select_income_category income_category) ;;
  match fetchone rows with
  | Some _ => ret DuplicateCategory
  | None =>
      exec (Sql.insert_into_income income_category income_amount date_str) ;;;
      ret IncomeAdded
  end.

(** [update_income()] *)
Definition update_income (income_category : string) (new_amount : float)
  : DB report :=
  exec (Sql.update_income new_amount income_category) ;;;
  ret IncomeUpdated.

(** [delete_income()] *)
Definition delete_income (income_category : string) : DB report :=
  exec (Sql.delete_from_income income_category) ;;;
  ret IncomeDeleted.

(** [set_budget()]: a fetched row is a non-empty tuple, hence truthy. *)
Definition set_budget (budget_category : string) (budget_amount : float)
  : DB report :=
  rows <- query (Sql.select_budget_amount budget_category) ;;
  match fetchone rows with
  | Some _ =>
      exec (Sql.update_budgets budget_amount budget_category) ;;;
      ret BudgetUpdated
  | None =>
      exec (Sql.insert_into_budgets budget_category budget_amount) ;;;
      ret BudgetSet
  end.

(** [set_financial_goal()] *)
Definition set_financial_goal (financial_goal : string)
    (target_amount saved_amount : float) : DB report :=
  exec (Sql.insert_into_financial_goals financial_goal target_amount
          saved_amount) ;;;
  ret GoalSet.

(** [update_financial_goal()]: [result[3]] raises on a missing row and the
    handler prints the error. *)
Definition update_financial_goal (financial_goal : string)
    (new_saved_amount : float) : DB report :=
  rows <- query (Sql.select_goal financial_goal) ;;
  match fetchone rows with
  | None => ret Failed
  | Some _ =>
      exec (Sql.update_financial_goals new_saved_amount financial_goal) ;;;
      ret GoalUpdated
  end.

(** [delete_financial_goal()] *)
Definition delete_financial_goal (financial_goal : string) : DB report :=
  exec (Sql.delete_from_financial_goals financial_goal) ;;;
  ret GoalDeleted.

(** The read-only menu entries: what each of them prints. *)
Definition view_expenses : DB (list expense_row) := query expenses.

Definition view_expenses_by_category (c : string) : DB (list expense_row) :=
  query (fun s => filter (fun r => String.eqb (e_category r) c) (expenses s)).

Definition total_expenses : DB float :=
  total <- query Sql.select_sum_expenses ;;
  ret (match total with None => 0 | Some t => t end).

Definition view_income : DB (list income_row) := query income.

Definition view_income_by_category (c : string) : DB (list income_row) :=
  query (fun s => filter (fun r => String.eqb (i_category r) c) (income s)).

Definition total_income : DB float :=
  total <- query Sql.select_sum_income ;;
  ret (match total with None => 0 | Some t => t end).

Definition view_budget (budget_category : string) : DB (option float) :=
  rows <- query (Sql.select_budget_amount budget_category) ;;
  ret (fetchone rows).

Definition view_financial_goals : DB (list goal_row) :=
  query financial_goals.

(** ** The budget summary *)

Record summary := mk_summary
  { sm_total_income : float;
    sm_total_expenses : float;
    sm_total_budgeted : float;
    sm_balance : float;
    sm_budget_status : string;
    sm_over_budget_categories : list (string * float * float);
    sm_no_budget_categories : list (string * float);
    sm_achieved_goals : list string }.

Definition flags : Type :=
  (list (string * float * float) * list (string * float))%type.

(** The body of the loop over [expense_categories]. *)
Definition compare_category (row : string * float) (acc : flags) : DB flags :=
  let (category, expense_amount) := row in
  rows <- query (Sql.select_budget_amount category) ;;
  match fetchone rows with
  | None => ret (fst acc, snd acc ++ [(category, expense_amount)])
  | Some budget_amount =>
      if PrimFloat.ltb budget_amount expense_amount
      then ret (fst acc ++ [(category, expense_amount, budget_amount)],
                snd acc)
      else ret acc
  end.

(** [if total_expenses <= total_budgeted and balance > 0] *)
Definition budget_status_of (total_expenses total_budgeted balance : float)
  : string :=
  if PrimFloat.leb total_expenses total_budgeted && PrimFloat.ltb 0 balance
  then "within budget" else "over budget".

(** [budget_summary()] *)
Definition budget_summary : DB summary :=
  ti <- query Sql.select_sum_income ;;
  let total_income := or_zero ti in
  te <- query Sql.select_sum_expenses ;;
  let total_expenses := or_zero te in
  tb <- query Sql.select_sum_budgets ;;
  let total_budgeted := or_zero tb in
  expense_categories <- query Sql.select_expenses_by_category ;;
  fl <- for_each expense_categories compare_category ([], []) ;;
  let balance := total_income - total_expenses in
  let budget_status :=
    budget_status_of total_expenses total_budgeted balance in
  achieved_goals <- query Sql.select_achieved_goals ;;
  ret (mk_summary total_income total_expenses total_budgeted balance
         budget_status (fst fl) (snd fl) achieved_goals).

(** ** Seed data and the menu *)

(** The rows [create_database()] inserts into a fresh file. *)
Definition seed : store :=
  mk_store
    [ mk_expense 1 "Groceries" 50 "2024-12-01";
      mk_expense 2 "Utilities" 100 "2024-12-02";
      mk_expense 3 "Transport" 20 "2024-12-03";
      mk_expense 4 "Dining" 30 "2024-12-04";
      mk_expense 5 "Entertainment" 40 "2024-12-05" ]
    [ mk_income 1 "Salary" 2000 "2024-12-01";
      mk_income 2 "Freelancing" 500 "2024-12-02";
      mk_income 3 "Investments" 300 "2024-12-03";
      mk_income 4 "Gifts" 100 "2024-12-04";
      mk_income 5 "Other" 50 "2024-12-05" ]
    [ mk_budget 1 "Groceries" 300;
      mk_budget 2 "Utilities" 150;
      mk_budget 3 "Transport" 100;
      mk_budget 4 "Dining" 200;
      mk_budget 5 "Entertainment" 150 ]
    [ mk_goal 1 "Buy a car" 20000 5000;
      mk_goal 2 "Vacation" 5000 1500;
      mk_goal 3 "Emergency fund" 10000 3000;
      mk_goal 4 "Home renovation" 15000 4000;
      mk_goal 5 "New laptop" 2000 800 ].

(** One menu choice together with the input the prompts accepted. *)
Inductive op : Type :=
| AddExpense (c : string) (a : float) (d : string)
| ViewExpenses
| ViewExpensesByCategory (c : string)
| UpdateExpense (c : string) (a : float)
| DeleteExpense (c : string)
| TotalExpenses
| AddIncome (c : string) (a : float) (d : string)
| ViewIncome
| ViewIncomeByCategory (c : string)
| UpdateIncome (c : string) (a : float)
| DeleteIncome (c : string)
| TotalIncome
| SetBudget (c : string) (a : float)
| ViewBudget (c : string)
| SetFinancialGoal (g : string) (t v : float)
| ViewFinancialGoals
| UpdateFinancialGoal (g : string) (v : float)
| DeleteFinancialGoal (g : string)
| BudgetSummary.

(** The store after a menu choice. *)
Definition run (o : op) (s : store) : store :=
  match o with
  | AddExpense c a d => snd (insert_expense c a d s)
  | ViewExpenses => snd (view_expenses s)
  | ViewExpensesByCategory c => snd (view_expenses_by_category c s)
  | UpdateExpense c a => snd (update_expense c a s)
  | DeleteExpense c => snd (delete_expense c s)
  | TotalExpenses => snd (total_expenses s)
  | AddIncome c a d => snd (insert_income c a d s)
  | ViewIncome => snd (view_income s)
  | ViewIncomeByCategory c => snd (view_income_by_category c s)
  | UpdateIncome c a => snd (update_income c a s)
  | DeleteIncome c => snd (delete_income c s)
  | TotalIncome => snd (total_income s)
  | SetBudget c a => snd (set_budget c a s)
  | ViewBudget c => snd (view_budget c s)
  | SetFinancialGoal g t v => snd (set_financial_goal g t v s)
  | ViewFinancialGoals => snd (view_financial_goals s)
  | UpdateFinancialGoal g v => snd (update_financial_goal g v s)
  | DeleteFinancialGoal g => snd (delete_financial_goal g s)
  | BudgetSummary => snd (budget_summary s)
  end.

(** When [validate_category_input] and [validate_financial_goal_input]
    return a text, it is one of the table they list; [offered] says that
    the choice was made with such a text.  (After a failed read they return
    [None]; the choices of [op] are those made with a text.)  The texts and
    amounts that [get_category], [get_financial_goal] and [get_amount] let
    through are not narrowed down here. *)
Definition offered (s : store) (o : op) : Prop :=
  match o with
  | ViewExpensesByCategory c | UpdateExpense c _ | DeleteExpense c
  | SetBudget c _ | ViewBudget c =>
      In c (Sql.select_distinct_expense_categories s)
  | ViewIncomeByCategory c | UpdateIncome c _ | DeleteIncome c =>
      In c (Sql.select_distinct_income_categories s)
  | UpdateFinancialGoal g _ | DeleteFinancialGoal g =>
      In g (Sql.select_distinct_goals s)
  | _ => True
  end.

(** The stores the program gets to from the seed data by menu choices made
    with listed texts. *)
Inductive reachable : store -> Prop :=
| reach_seed : reachable seed
| reach_step s o : reachable s -> offered s o -> reachable (run o s).

(** The budget a category is compared with: the first row the lookup
    returns. *)
Definition budget_of (c : string) (s : store) : option float :=
  fetchone (Sql.select_budget_amount c s).

(** What one expense category adds to the over-budget list. *)
Definition over_entry (s : store) (row : string * float)
  : list (string * float * float) :=
  match budget_of (fst row) s with
  | Some b => if PrimFloat.ltb b (snd row) then [(fst row, snd row, b)] else []
  | None => []
  end.

(** What one expense category adds to the no-budget list. *)
Definition no_budget_entry (s : store) (row : string * float)
  : list (string * float) :=
  match budget_of (fst row) s with
  | Some _ => []
  | None => [(fst row, snd row)]
  end.

(** ** The record-store operations the properties speak about *)

Inductive kind : Type := Expense | Income | Budget | FinancialGoal.

(** The UPDATE statement of each kind of record: [update_expense],
    [update_income], the update branch of [set_budget] and
    [update_financial_goal] run it with the text key and the new amount. *)
Definition update_amount (k : kind) (key : string) (new_amount : float)
    (s : store) : store :=
  match k with
  | Expense => Sql.update_expenses new_amount key s
  | Income => Sql.update_income new_amount key s
  | Budget => Sql.update_budgets new_amount key s
  | FinancialGoal => Sql.update_financial_goals new_amount key s
  end.

(** Whether some row of the kind carries the text key. *)
Definition has_key (k : kind) (key : string) (s : store) : bool :=
  match k with
  | Expense => existsb (fun r => String.eqb (e_category r) key) (expenses s)
  | Income => existsb (fun r => String.eqb (i_category r) key) (income s)
  | Budget => existsb (fun r => String.eqb (b_category r) key) (budgets s)
  | FinancialGoal =>
      existsb (fun r => String.eqb (g_goal r) key) (financial_goals s)
  end.


(** At most one budget row per category text. *)
Definition budget_unique (s : store) : Prop :=
  NoDup (map b_category (budgets s)).

(** The store with another budgets table. *)
Definition with_budgets (s : store) (l : list budget_row) : store :=
  mk_store (expenses s) (income s) l (financial_goals s).

(** The store with another financial_goals table. *)
Definition with_goals (s : store) (l : list goal_row) : store :=
  mk_store (expenses s) (income s) (budgets s) l.

(** ** Further invariants of the tables *)

(** At most one expense row per category text. *)
Definition expense_unique (s : store) : Prop :=
  NoDup (map e_category (expenses s)).

(** At most one income row per category text. *)
Definition income_unique (s : store) : Prop :=
  NoDup (map i_category (income s)).

(** Every budget row belongs to a category that has an expense row. *)
Definition budgets_have_expense (s : store) : Prop :=
  forall b, In b (budgets s) ->
            In (b_category b) (map e_category (expenses s)).

(** The [INTEGER PRIMARY KEY] of every table: positive and never shared. *)
Definition rowids_ok (ids : list Z) : Prop :=
  NoDup ids /\ Forall (fun i => (0 < i)%Z) ids.

Definition keys_ok (s : store) : Prop :=
  rowids_ok (map e_id (expenses s)) /\ rowids_ok (map i_id (income s))
  /\ rowids_ok (map b_id (budgets s))
  /\ rowids_ok (map g_id (financial_goals s)).

(** The category texts of a table after rows were updated in place,
    removed, or one row was appended. *)
Inductive table_change (cats : list string) : list string -> Prop :=
| change_none : table_change cats cats
| change_append c : ~ In c cats -> table_change cats (cats ++ [c])
| change_remove c :
    table_change cats (filter (fun x => negb (String.eqb x c)) cats).

(** The menu choices of the income and the financial-goals submenus. *)
Definition income_or_goal_choice (o : op) : bool :=
  match o with
  | AddIncome _ _ _ | ViewIncome | ViewIncomeByCategory _ | UpdateIncome _ _
  | DeleteIncome _ | TotalIncome
  | SetFinancialGoal _ _ _ | ViewFinancialGoals | UpdateFinancialGoal _ _
  | DeleteFinancialGoal _ => true
  | _ => false
  end.

(** ** Choosing a category at the prompt *)

(** The loop of [validate_category_input] and of
    [validate_financial_goal_input] over what standard input still holds.
    A line is [Some] text, or [None] for a read that raises (end of input);
    [normalize] is [.strip().capitalize()].  The result is what the
    function returns, the accepted text or Python's [None] after the
    handler has printed the error of a failed read, with the number of
    "Invalid category" lines printed and the input left over.  Input that
    runs out counts as a failed read. *)
Fixpoint validate_input (normalize : string -> string)
    (categories : list string) (lines : list (option string))
    (rejected : nat) : option string * nat * list (option string) :=
  match lines with
  | [] => (None, rejected, [])
  | None :: rest => (None, rejected, rest)
  | Some line :: rest =>
      let user_input := normalize line in
      if existsb (String.eqb user_input) categories
      then (Some user_input, rejected, rest)
      else validate_input normalize categories rest (S rejected)
  end.

(** [validate_category_input("expenses")] *)
Definition validate_category_input_expenses (normalize : string -> string)
    (lines : list (option string)) (s : store) :=
  validate_input normalize (Sql.select_distinct_expense_categories s) lines 0.

(** * Properties *)

(** ** The order on binary64 values *)

Module FloatOrder.

Lemma SFcompare_swap (x y : spec_float) :
  SFcompare y x = option_map CompOpp (SFcompare x y).
Proof.
  destruct x as [sx|sx| |sx mx ex], y as [sy|sy| |sy my ey]; simpl;
    try reflexivity;
    try (destruct sx; reflexivity); try (destruct sy; reflexivity);
    try (destruct sx, sy; reflexivity).
  destruct sx, sy; simpl; try reflexivity;
    rewrite (Z.compare_antisym ey ex);
    destruct (ey ?= ex)%Z; simpl; try reflexivity;
    rewrite (Pos.compare_cont_antisym mx my Eq); reflexivity.
Qed.

(** [a < b] excludes [b <= a]. *)
Lemma ltb_not_leb (a b : float) :
  PrimFloat.ltb a b = true -> PrimFloat.leb b a = false.
Proof.
  rewrite FloatAxioms.ltb_spec, FloatAxioms.leb_spec. unfold SFltb, SFleb.
  rewrite (SFcompare_swap (Prim2SF a) (Prim2SF b)).
  destruct (SFcompare (Prim2SF a) (Prim2SF b)) as [[ | | ]|]; simpl;
    congruence.
Qed.


(** [a == b] gives [b <= a]. *)
Lemma eqb_leb (a b : float) :
  PrimFloat.eqb a b = true -> PrimFloat.leb b a = true.
Proof.
  rewrite FloatAxioms.eqb_spec, FloatAxioms.leb_spec. unfold SFeqb, SFleb.
  rewrite (SFcompare_swap (Prim2SF a) (Prim2SF b)).
  destruct (SFcompare (Prim2SF a) (Prim2SF b)) as [[ | | ]|]; simpl;
    congruence.
Qed.

(** ** What a REAL column gives back compares like the bound float *)

Lemma eqb_zero_SF (x : float) :
  PrimFloat.eqb x 0 = true -> exists b, Prim2SF x = S754_zero b.
Proof.
  rewrite FloatAxioms.eqb_spec. unfold SFeqb.
  change (Prim2SF 0) with (S754_zero false).
  destruct (Prim2SF x) as [b|b| |b m e]; simpl.
  - intros _. now exists b.
  - destruct b; discriminate.
  - discriminate.
  - destruct b; discriminate.
Qed.

Lemma SFcompare_sql_real (x : float) :
  (forall y, SFcompare (Prim2SF (sql_real x)) y = SFcompare (Prim2SF x) y)
  /\ (forall y, SFcompare y (Prim2SF (sql_real x))
                = SFcompare y (Prim2SF x)).
Proof.
  unfold sql_real. destruct (PrimFloat.eqb x 0) eqn:E; [|now split].
  destruct (eqb_zero_SF x E) as [b ->].
  change (Prim2SF 0) with (S754_zero false).
  split; intros y; destruct y as [sy|sy| |sy my ey]; reflexivity.
Qed.

Lemma leb_sql_real (x y : float) :
  PrimFloat.leb (sql_real x) (sql_real y) = PrimFloat.leb x y.
Proof.
  rewrite !FloatAxioms.leb_spec. unfold SFleb.
  now rewrite (proj1 (SFcompare_sql_real x)), (proj2 (SFcompare_sql_real y)).
Qed.

Lemma leb_sql_real_r (x y : float) :
  PrimFloat.leb x (sql_real y) = PrimFloat.leb x y.
Proof.
  rewrite !FloatAxioms.leb_spec. unfold SFleb.
  now rewrite (proj2 (SFcompare_sql_real y)).
Qed.

Lemma ltb_sql_real_l (x y : float) :
  PrimFloat.ltb (sql_real x) y = PrimFloat.ltb x y.
Proof.
  rewrite !FloatAxioms.ltb_spec. unfold SFltb.
  now rewrite (proj1 (SFcompare_sql_real x)).
Qed.

End FloatOrder.

(** ** Reading statements and the loop of the summary *)

Section Loop.

Variables A B : Type.
Variable body : A -> B -> DB B.
Hypothesis body_reads : forall x acc s, snd (body x acc s) = s.

Lemma for_each_reads (xs : list A) (acc : B) (s : store) :
  snd (for_each xs body acc s) = s.
Proof.
  revert acc. induction xs as [|x xs IH]; intros acc; simpl.
  - reflexivity.
  - unfold bind. specialize (body_reads x acc s).
    destruct (body x acc s) as [acc' s']. simpl in body_reads. subst s'.
    apply IH.
Qed.

Lemma for_each_fold (xs : list A) (acc : B) (s : store) :
  fst (for_each xs body acc s)
  = fold_left (fun b x => fst (body x b s)) xs acc.
Proof.
  revert acc. induction xs as [|x xs IH]; intros acc; simpl.
  - reflexivity.
  - unfold bind. specialize (body_reads x acc s).
    destruct (body x acc s) as [acc' s']. simpl in body_reads. subst s'.
    apply IH.
Qed.

End Loop.

Lemma compare_category_reads row acc s :
  snd (compare_category row acc s) = s.
Proof.
  destruct row as [c x]. unfold compare_category, bind, query, ret.
  destruct (fetchone (Sql.select_budget_amount c s)) as [b|]; simpl.
  - destruct (PrimFloat.ltb b x); reflexivity.
  - reflexivity.
Qed.

Lemma compare_category_value row acc s :
  fst (compare_category row acc s)
  = (fst acc ++ over_entry s row, snd acc ++ no_budget_entry s row).
Proof.
  destruct row as [c x], acc as [ov nb].
  unfold compare_category, over_entry, no_budget_entry, budget_of, bind,
    query, ret; simpl.
  destruct (fetchone (Sql.select_budget_amount c s)) as [b|]; simpl.
  - destruct (PrimFloat.ltb b x); simpl; now rewrite ?app_nil_r.
  - now rewrite app_nil_r.
Qed.

Lemma compare_loop (s : store) (xs : list (string * float)) (acc : flags) :
  fold_left (fun b x => fst (compare_category x b s)) xs acc
  = (fst acc ++ flat_map (over_entry s) xs,
     snd acc ++ flat_map (no_budget_entry s) xs).
Proof.
  revert acc. induction xs as [|x xs IH]; intros acc; simpl.
  - rewrite !app_nil_r. now destruct acc.
  - rewrite IH, compare_category_value. simpl. now rewrite <- !app_assoc.
Qed.

(** The summary as a function of the store it reads. *)
Lemma budget_summary_unfold (s : store) :
  budget_summary s =
  (let ti := or_zero (Sql.select_sum_income s) in
   let te := or_zero (Sql.select_sum_expenses s) in
   let tb := or_zero (Sql.select_sum_budgets s) in
   mk_summary ti te tb (ti - te) (budget_status_of te tb (ti - te))
     (flat_map (over_entry s) (Sql.select_expenses_by_category s))
     (flat_map (no_budget_entry s) (Sql.select_expenses_by_category s))
     (Sql.select_achieved_goals s),
   s).
Proof.
  unfold budget_summary, bind, query, ret.
  pose proof (for_each_reads _ _ compare_category compare_category_reads
                (Sql.select_expenses_by_category s) ([], []) s) as Hs.
  pose proof (for_each_fold _ _ compare_category compare_category_reads
                (Sql.select_expenses_by_category s) ([], []) s) as Hv.
  destruct (for_each (Sql.select_expenses_by_category s) compare_category
              ([], []) s) as [fl s'].
  simpl in Hs, Hv. subst s'. rewrite Hv, compare_loop. reflexivity.
Qed.

(** ** Membership in the two lists of the summary *)

Lemma in_insert_text (x c : string) (l : list string) :
  In x (insert_text c l) <-> x = c \/ In x l.
Proof.
  induction l as [|y l IH]; simpl.
  - intuition.
  - destruct (String.leb c y); simpl; [intuition|].
    rewrite IH. intuition.
Qed.

Lemma in_sort_texts (x : string) (l : list string) :
  In x (sort_texts l) <-> In x l.
Proof.
  induction l as [|y l IH]; simpl; [tauto|].
  rewrite in_insert_text, IH. intuition.
Qed.

Lemma NoDup_insert_text (c : string) (l : list string) :
  ~ In c l -> NoDup l -> NoDup (insert_text c l).
Proof.
  induction l as [|y l IH]; simpl; intros Hc Hl.
  - constructor; [tauto | constructor].
  - destruct (String.leb c y); [now constructor|].
    apply NoDup_cons_iff in Hl. destruct Hl as [Hy Hl].
    constructor.
    + rewrite in_insert_text. intros [->|H]; tauto.
    + apply IH; tauto.
Qed.

Lemma NoDup_sort_texts (l : list string) :
  NoDup l -> NoDup (sort_texts l).
Proof.
  induction l as [|y l IH]; simpl; intros H; [constructor|].
  apply NoDup_cons_iff in H. destruct H as [Hy Hl].
  apply NoDup_insert_text; [now rewrite in_sort_texts | now apply IH].
Qed.

Lemma length_sort_texts (l : list string) :
  List.length (sort_texts l) = List.length l.
Proof.
  assert (Hi : forall c l0,
             List.length (insert_text c l0) = S (List.length l0)).
  { intros c l0. induction l0 as [|y l0 IH]; simpl; [reflexivity|].
    destruct (String.leb c y); simpl; [reflexivity | now rewrite IH]. }
  induction l as [|y l IH]; simpl; [reflexivity|]. now rewrite Hi, IH.
Qed.

Lemma in_expense_groups (s : store) (c : string) (x : float) :
  In (c, x) (Sql.select_expenses_by_category s) <->
  In c (distinct (map e_category (expenses s)))
  /\ x = Sql.group_sum c (expenses s).
Proof.
  unfold Sql.select_expenses_by_category. rewrite in_map_iff. split.
  - intros [c' [E H]]. inversion E; subst.
    split; [now apply in_sort_texts | reflexivity].
  - intros [H ->]. exists c. split; [reflexivity | now apply in_sort_texts].
Qed.

Lemma in_over_entries (s : store) xs (c : string) (x y : float) :
  In (c, x, y) (flat_map (over_entry s) xs) <->
  In (c, x) xs /\ budget_of c s = Some y /\ PrimFloat.ltb y x = true.
Proof.
  rewrite in_flat_map. unfold over_entry. split.
  - intros [[c' x'] [Hin H]]. simpl in H.
    destruct (budget_of c' s) as [b|] eqn:Eb; [|contradiction].
    destruct (PrimFloat.ltb b x') eqn:El; [|contradiction].
    destruct H as [H|[]]. inversion H; subst. auto.
  - intros (Hin & Eb & El). exists (c, x). split; [exact Hin|].
    simpl. rewrite Eb, El. now left.
Qed.

Lemma in_no_budget_entries (s : store) xs (c : string) (x : float) :
  In (c, x) (flat_map (no_budget_entry s) xs) <->
  In (c, x) xs /\ budget_of c s = None.
Proof.
  rewrite in_flat_map. unfold no_budget_entry. split.
  - intros [[c' x'] [Hin H]]. simpl in H.
    destruct (budget_of c' s) as [b|] eqn:Eb; [contradiction|].
    destruct H as [H|[]]. inversion H; subst. auto.
  - intros (Hin & Eb). exists (c, x). split; [exact Hin|].
    simpl. rewrite Eb. now left.
Qed.

(** The lookup of the loop returns the amount of the first budget row with
    the category text. *)
Lemma budget_of_find (c : string) (s : store) :
  budget_of c s
  = option_map b_budget_amount
      (find (fun r => String.eqb (b_category r) c) (budgets s)).
Proof.
  unfold budget_of, Sql.select_budget_amount, fetchone.
  induction (budgets s) as [|r l IH]; simpl.
  - reflexivity.
  - destruct (String.eqb (b_category r) c); [reflexivity | exact IH].
Qed.

Lemma budget_of_none (c : string) (s : store) :
  budget_of c s = None <->
  (forall r, In r (budgets s) -> b_category r <> c).
Proof.
  rewrite budget_of_find. split.
  - intros H r Hin Hc.
    destruct (find (fun r => String.eqb (b_category r) c) (budgets s))
      eqn:E; [discriminate|].
    pose proof (find_none _ _ E r Hin) as Hn. simpl in Hn.
    apply String.eqb_neq in Hn. contradiction.
  - intros H.
    destruct (find (fun r => String.eqb (b_category r) c) (budgets s))
      as [r|] eqn:E; [|reflexivity].
    apply find_some in E. destruct E as [Hin Hc].
    apply String.eqb_eq in Hc. now destruct (H r Hin).
Qed.

(** ** The summary reads and does not write *)

(** C8: for every store, [budget_summary] returns with the four tables
    exactly as it found them; every statement it runs is a SELECT. *)
Theorem budget_summary_reads_only (s : store) :
  snd (budget_summary s) = s
  /\ expenses (snd (budget_summary s)) = expenses s
  /\ income (snd (budget_summary s)) = income s
  /\ budgets (snd (budget_summary s)) = budgets s
  /\ financial_goals (snd (budget_summary s)) = financial_goals s.
Proof.
  assert (E : snd (budget_summary s) = s)
    by (rewrite budget_summary_unfold; reflexivity).
  rewrite E. repeat split; reflexivity.
Qed.

(** ** The overall status *)

(** C1: the status is "within budget" exactly when total expenses <= total
    budgeted and the balance, total income - total expenses, is > 0, and
    "over budget" otherwise.  The three totals are the sums over the three
    tables, and two stores with the same totals get the same status whatever
    their categories look like. *)
Theorem overall_status_from_totals (s : store) :
  let r := fst (budget_summary s) in
  (sm_total_income r = or_zero (sql_sum (map i_amount (income s)))
   /\ sm_total_expenses r = or_zero (sql_sum (map e_amount (expenses s)))
   /\ sm_total_budgeted r
      = or_zero (sql_sum (map b_budget_amount (budgets s)))
   /\ sm_balance r = sm_total_income r - sm_total_expenses r)
  /\ (sm_budget_status r = "within budget" <->
      PrimFloat.leb (sm_total_expenses r) (sm_total_budgeted r) = true
      /\ PrimFloat.ltb 0 (sm_balance r) = true)
  /\ (sm_budget_status r = "over budget" <->
      ~ (PrimFloat.leb (sm_total_expenses r) (sm_total_budgeted r) = true
         /\ PrimFloat.ltb 0 (sm_balance r) = true))
  /\ (forall s' : store,
        let r' := fst (budget_summary s') in
        sm_total_income r' = sm_total_income r ->
        sm_total_expenses r' = sm_total_expenses r ->
        sm_total_budgeted r' = sm_total_budgeted r ->
        sm_budget_status r' = sm_budget_status r).
Proof.
  intros r. subst r. rewrite budget_summary_unfold. cbn [fst].
  cbv zeta. cbn [sm_total_income sm_total_expenses sm_total_budgeted
                 sm_balance sm_budget_status].
  split; [repeat split|]. unfold budget_status_of.
  split; [|split].
  - destruct (PrimFloat.leb _ _); destruct (PrimFloat.ltb _ _); simpl;
      split; try tauto; try discriminate; intros [? ?]; discriminate.
  - destruct (PrimFloat.leb _ _); destruct (PrimFloat.ltb _ _); simpl;
      split; try discriminate; try tauto;
      try (intros _ [? ?]; discriminate).
    all: intros H; exfalso; apply H; split; reflexivity.
  - intros s'. rewrite budget_summary_unfold. cbn [fst]. cbv zeta.
    cbn [sm_total_income sm_total_expenses sm_total_budgeted
         sm_budget_status].
    intros -> -> ->. reflexivity.
Qed.

(** The status and the category lists are unrelated, first direction: a
    category is over its budget while the status reads "within budget". *)
Example over_category_within_status :
  let s := mk_store [mk_expense 1 "Dining" 30 "2024-12-04"]
                    [mk_income 1 "Salary" 2000 "2024-12-01"]
                    [mk_budget 1 "Dining" 20; mk_budget 2 "Travel" 500] [] in
  let r := fst (budget_summary s) in
  sm_over_budget_categories r = [("Dining", 30, 20)]
  /\ sm_budget_status r = "within budget".
Proof. vm_compute. split; reflexivity. Qed.

(** Second direction: no category is flagged while the status reads "over
    budget", here because the balance is not positive. *)
Example no_over_category_over_status :
  let s := mk_store [mk_expense 1 "Dining" 30 "2024-12-04"]
                    [mk_income 1 "Gifts" 30 "2024-12-01"]
                    [mk_budget 1 "Dining" 200] [] in
  let r := fst (budget_summary s) in
  sm_over_budget_categories r = [] /\ sm_no_budget_categories r = []
  /\ sm_budget_status r = "over budget".
Proof. vm_compute. repeat split; reflexivity. Qed.

(** ** The per-category comparison *)

Lemma in_distinct (x : string) (l : list string) :
  In x (distinct l) <-> In x l.
Proof.
  induction l as [|y l IH]; simpl; [tauto|].
  rewrite filter_In, IH. split.
  - intros [H|[H _]]; auto.
  - intros [H|H]; [now left|].
    destruct (String.eqb_spec x y) as [->|N]; [now left|right].
    split; [exact H|reflexivity].
Qed.

(** The groups of the GROUP BY: one per category text present in the
    expenses table, with the sum of the rows that carry it. *)
Lemma expense_groups_spec (s : store) (c : string) (x : float) :
  In (c, x) (Sql.select_expenses_by_category s) <->
  (exists r, In r (expenses s) /\ e_category r = c)
  /\ x = Sql.group_sum c (expenses s).
Proof.
  rewrite in_expense_groups, in_distinct, in_map_iff.
  split; intros [[r [H1 H2]] H]; (split; [exists r; auto | exact H]).
Qed.



(** ** The seed data, and Groceries budgeted at 10.0 *)

Lemma seed_summary :
  let r := fst (budget_summary seed) in
  sm_total_income r = 2950 /\ sm_total_expenses r = 240
  /\ sm_total_budgeted r = 900 /\ sm_balance r = 2710
  /\ sm_budget_status r = "within budget"
  /\ sm_over_budget_categories r = [] /\ sm_no_budget_categories r = []
  /\ sm_achieved_goals r = [].
Proof. vm_compute. repeat split; reflexivity. Qed.

(** C3, as the code has it: from the seed data (totals 2950.0, 240.0 and
    900.0), setting the Groceries budget to 10.0 updates the one Groceries
    row; the over-budget list is then exactly (Groceries, 50.0, 10.0) and the
    status still reads "within budget", with total expenses 240.0 <= total
    budgeted 610.0 (10 + 150 + 100 + 200 + 150) and balance 2710.0 > 0. *)
Theorem groceries_over_budget_within_status :
  let r0 := fst (budget_summary seed) in
  let s := snd (set_budget "Groceries" 10 seed) in
  let r := fst (budget_summary s) in
  (sm_total_income r0 = 2950 /\ sm_total_expenses r0 = 240
   /\ sm_total_budgeted r0 = 900)
  /\ fst (set_budget "Groceries" 10 seed) = BudgetUpdated
  /\ In ("Groceries", 50, 10) (sm_over_budget_categories r)
  /\ sm_over_budget_categories r = [("Groceries", 50, 10)]
  /\ sm_budget_status r = "within budget"
  /\ sm_total_expenses r = 240
  /\ sm_total_budgeted r = 610
  /\ sm_balance r = 2710
  /\ PrimFloat.leb 240 610 = true
  /\ PrimFloat.ltb 0 2710 = true.
Proof. vm_compute. repeat split; try reflexivity. left; reflexivity. Qed.

(** The total budgeted after the change is not 860.0. *)
Lemma groceries_total_budgeted_not_860 :
  let s := snd (set_budget "Groceries" 10 seed) in
  let r := fst (budget_summary s) in
  ~ (In ("Groceries", 50, 10) (sm_over_budget_categories r)
     /\ sm_budget_status r = "within budget"
     /\ sm_total_expenses r = 240
     /\ sm_total_budgeted r = 860
     /\ sm_balance r = 2710).
Proof.
  intros s r (_ & _ & _ & H & _).
  assert (E : PrimFloat.eqb (sm_total_budgeted r) 860 = true)
    by (rewrite H; reflexivity).
  vm_compute in E. discriminate E.
Qed.

(** ** Creating an expense whose category exists *)

Lemma fetchone_select_expense_category (c : string) (s : store) :
  (exists r, In r (expenses s) /\ e_category r = c) ->
  fetchone (Sql.select_expense_category c s) = Some c.
Proof.
  intros [r [Hin Hc]]. unfold Sql.select_expense_category, fetchone.
  induction (expenses s) as [|x l IH]; simpl in *; [contradiction|].
  destruct (String.eqb_spec (e_category x) c) as [E|N].
  - simpl. now rewrite E.
  - destruct Hin as [->|Hin]; [contradiction|]. now apply IH.
Qed.

(** C4: when an expense row with category [c] exists, [insert_expense] with
    category [c] reports the duplicate and returns the store it was given:
    no row of any table is inserted or modified. *)
Theorem insert_expense_duplicate (s : store) (c : string) (a : float)
    (d : string) :
  (exists r, In r (expenses s) /\ e_category r = c) ->
  insert_expense c a d s = (DuplicateCategory, s).
Proof.
  intros H. unfold insert_expense, bind, query.
  rewrite (fetchone_select_expense_category c s H). reflexivity.
Qed.

Lemma insert_expense_duplicate_witness :
  (exists r, In r (expenses seed) /\ e_category r = "Groceries")
  /\ insert_expense "Groceries" 75 "2025-01-01" seed
     = (DuplicateCategory, seed).
Proof.
  assert (H : exists r, In r (expenses seed) /\ e_category r = "Groceries").
  { exists (mk_expense 1 "Groceries" 50 "2024-12-01").
    split; [left; reflexivity | reflexivity]. }
  split; [exact H|].
  exact (insert_expense_duplicate seed "Groceries" 75 "2025-01-01" H).
Defined.

(** A new category is appended with the next rowid. *)
Example insert_expense_new :
  let (rep, s) := insert_expense "Rent" 700 "2025-01-01" seed in
  rep = ExpenseAdded
  /\ expenses s = expenses seed ++ [mk_expense 6 "Rent" 700 "2025-01-01"]
  /\ income s = income seed /\ budgets s = budgets seed
  /\ financial_goals s = financial_goals seed.
Proof. vm_compute. repeat split; reflexivity. Qed.

(** ** Updating an amount by its text key *)

Section UpdatedRows.

Variable R : Type.
Variable key_of : R -> string.
Variable amount_of : R -> float.
Variable same : R -> R -> Prop.
Variable set : float -> R -> R.
Hypothesis set_same : forall a o, same o (set a o).
Hypothesis set_amount : forall a o, amount_of (set a o) = a.



End UpdatedRows.

Lemma existsb_fetchone {R : Type} (key_of : R -> string) (key : string)
    (rows : list R) :
  existsb (fun r => String.eqb (key_of r) key) rows = true ->
  exists r, hd_error (filter (fun r => String.eqb (key_of r) key) rows)
            = Some r.
Proof.
  induction rows as [|x rows IH]; simpl; [discriminate|].
  destruct (String.eqb (key_of x) key); simpl; [now exists x | exact IH].
Qed.


(** [update_financial_goal] reads the row before it writes: with a goal
    text some row carries it is the UPDATE. *)
Lemma update_financial_goal_has_key (g : string) (v : float) (s : store) :
  has_key FinancialGoal g s = true ->
  update_financial_goal g v s
  = (GoalUpdated, update_amount FinancialGoal g v s).
Proof.
  simpl. intros H.
  unfold update_financial_goal, bind, query, Sql.select_goal, fetchone.
  destruct (existsb_fetchone g_goal g (financial_goals s) H) as [r ->].
  reflexivity.
Qed.

(** The goal text [validate_financial_goal_input] returns from the list is
    such a text. *)
Lemma update_financial_goal_offered (g : string) (v : float) (s : store) :
  In g (Sql.select_distinct_goals s) ->
  update_financial_goal g v s
  = (GoalUpdated, update_amount FinancialGoal g v s).
Proof.
  unfold Sql.select_distinct_goals. rewrite in_distinct, in_map_iff.
  intros [r [Hg Hin]]. apply update_financial_goal_has_key. simpl.
  apply existsb_exists. exists r. split; [exact Hin|].
  now apply String.eqb_eq.
Qed.






(** Two goals with one text: both saved amounts are overwritten. *)
Example update_amount_duplicate_goals :
  financial_goals
    (update_amount FinancialGoal "Vacation" 99
       (mk_store [] [] []
          [mk_goal 1 "Vacation" 5000 1500; mk_goal 2 "Car" 20000 5000;
           mk_goal 3 "Vacation" 800 20]))
  = [mk_goal 1 "Vacation" 5000 99; mk_goal 2 "Car" 20000 5000;
     mk_goal 3 "Vacation" 800 99].
Proof. reflexivity. Qed.

(** A key that is not in the table. *)
Example update_amount_no_match :
  update_expense "Holidays" 99 seed = (ExpenseUpdated, seed).
Proof. reflexivity. Qed.

(** A bound -0.0 is read back as 0.0. *)
Example update_amount_negative_zero :
  map b_budget_amount
    (budgets (update_amount Budget "Dining" (-0) seed))
  = [300; 150; 100; 0; 150].
Proof. reflexivity. Qed.

(** ** Deleting an expense category *)

Lemma filter_all {A : Type} (p : A -> bool) (l : list A) :
  (forall x, In x l -> p x = true) -> filter p l = l.
Proof.
  induction l as [|x l IH]; simpl; intros H; [reflexivity|].
  rewrite (H x (or_introl eq_refl)), IH; auto.
Qed.

(** C6: [delete_expense] with category [c] removes every expense row and
    every budget row whose category is exactly [c]; the other expense and
    budget rows stay, in their order, and the income and goal tables are
    unchanged.  When no budget row has category [c] the budgets table is
    unchanged. *)
Theorem delete_expense_cascade (c : string) (s : store) :
  let s' := snd (delete_expense c s) in
  fst (delete_expense c s) = ExpenseDeleted
  /\ (forall r, In r (expenses s') <-> In r (expenses s) /\ e_category r <> c)
  /\ (forall r, In r (budgets s') <-> In r (budgets s) /\ b_category r <> c)
  /\ expenses s'
     = filter (fun r => negb (String.eqb (e_category r) c)) (expenses s)
  /\ budgets s'
     = filter (fun r => negb (String.eqb (b_category r) c)) (budgets s)
  /\ income s' = income s
  /\ financial_goals s' = financial_goals s
  /\ ((forall r, In r (budgets s) -> b_category r <> c) ->
      budgets s' = budgets s).
Proof.
  intros s'. subst s'. simpl.
  split; [reflexivity|]. split; [|split].
  - intros r. rewrite filter_In, negb_true_iff, String.eqb_neq. tauto.
  - intros r. rewrite filter_In, negb_true_iff, String.eqb_neq. tauto.
  - repeat split. intros H. apply filter_all.
    intros r Hr. apply negb_true_iff, String.eqb_neq. now apply H.
Qed.

(** Deleting Groceries from the seed data takes its expense and its budget
    with it. *)
Example delete_expense_groceries :
  let s := snd (delete_expense "Groceries" seed) in
  map e_category (expenses s)
  = ["Utilities"; "Transport"; "Dining"; "Entertainment"]
  /\ map b_category (budgets s)
     = ["Utilities"; "Transport"; "Dining"; "Entertainment"]
  /\ income s = income seed /\ financial_goals s = financial_goals seed.
Proof. vm_compute. repeat split; reflexivity. Qed.

(** ** One budget row per category *)

(** Removing budget rows keeps the category texts distinct. *)
Lemma budget_categories_filter (keep : budget_row -> bool)
    (rows : list budget_row) :
  NoDup (map b_category rows) ->
  NoDup (map b_category (filter keep rows)).
Proof.
  intros H. induction rows as [|x rows IH]; simpl; [constructor|].
  simpl in H. apply NoDup_cons_iff in H. destruct H as [Hx Hl].
  destruct (keep x); simpl; [|now apply IH].
  apply NoDup_cons_iff. split; [|now apply IH].
  rewrite in_map_iff. intros [y [E Hy]]. apply filter_In in Hy.
  apply Hx, in_map_iff. exists y. tauto.
Qed.

Lemma update_budgets_categories (a : float) (c : string) (s : store) :
  map b_category (budgets (Sql.update_budgets a c s))
  = map b_category (budgets s).
Proof.
  simpl. rewrite map_map. apply map_ext.
  intros r. destruct (String.eqb (b_category r) c); reflexivity.
Qed.

Lemma set_budget_unique (c : string) (a : float) (s : store) :
  budget_unique s -> budget_unique (snd (set_budget c a s)).
Proof.
  unfold budget_unique, set_budget, bind, query. intros H.
  destruct (fetchone (Sql.select_budget_amount c s)) as [b|] eqn:E.
  - change (NoDup (map b_category (budgets (Sql.update_budgets a c s)))).
    now rewrite update_budgets_categories.
  - change (NoDup (map b_category
              (budgets s
                 ++ [mk_budget (next_id (map b_id (budgets s))) c
                       (sql_real a)]))).
    rewrite map_app. simpl.
    apply NoDup_app_remove_l with (l := []). simpl.
    apply NoDup_Add with (a := c) (l := map b_category (budgets s)).
    + rewrite <- (app_nil_r (map b_category (budgets s))) at 1.
      apply Add_app.
    + split; [exact H|].
      change (budget_of c s = None) in E.
      rewrite budget_of_none in E.
      intros Hin. apply in_map_iff in Hin. destruct Hin as [r [Hc Hr]].
      exact (E r Hr Hc).
Qed.

Lemma delete_expense_unique (c : string) (s : store) :
  budget_unique s -> budget_unique (snd (delete_expense c s)).
Proof. unfold budget_unique. simpl. apply budget_categories_filter. Qed.

Lemma run_budgets (o : op) (s : store) :
  budgets (run o s) = budgets s
  \/ (exists c a, run o s = snd (set_budget c a s))
  \/ (exists c, run o s = snd (delete_expense c s)).
Proof.
  destruct o; simpl;
    try (left; reflexivity);
    try (right; left; do 2 eexists; reflexivity);
    try (right; right; eexists; reflexivity).
  - unfold insert_expense, bind, query.
    destruct (fetchone _); left; reflexivity.
  - unfold insert_income, bind, query.
    destruct (fetchone _); left; reflexivity.
  - unfold update_financial_goal, bind, query.
    destruct (fetchone _); left; reflexivity.
  - left. rewrite budget_summary_unfold. reflexivity.
Qed.

Lemma run_preserves_budget_unique (o : op) (s : store) :
  budget_unique s -> budget_unique (run o s).
Proof.
  intros H. destruct (run_budgets o s) as [E|[[c [a E]]|[c E]]].
  - unfold budget_unique. now rewrite E.
  - rewrite E. now apply set_budget_unique.
  - rewrite E. now apply delete_expense_unique.
Qed.

Lemma seed_budget_unique : budget_unique seed.
Proof.
  unfold budget_unique. simpl.
  repeat (constructor; [simpl; intuition discriminate|]). constructor.
Qed.

(** C9: at most one budget row per category text holds of the seed data and
    is preserved by every menu choice, so it holds in every reachable
    store.  [set_budget] updates when the category has a row and inserts
    only when it has none; [delete_expense] only removes rows. *)
Theorem budget_category_unique :
  budget_unique seed
  /\ (forall o s, budget_unique s -> budget_unique (run o s))
  /\ (forall s, reachable s -> budget_unique s).
Proof.
  split; [exact seed_budget_unique|]. split.
  - exact run_preserves_budget_unique.
  - intros s H. induction H as [|s o _ IH _].
    + exact seed_budget_unique.
    + now apply run_preserves_budget_unique.
Qed.

(** A reachable store: the seed data after Groceries was budgeted at 10.0
    and Dining was deleted. *)
Example reachable_example :
  reachable (run (DeleteExpense "Dining") (run (SetBudget "Groceries" 10) seed)).
Proof.
  apply reach_step; [apply reach_step; [apply reach_seed|]|];
    vm_compute; tauto.
Qed.

(** ** Achieved goals *)

(** C7, as the code has it: the names the summary reports are those of the
    goal rows with saved_amount >= target_amount, in table order.  A row
    whose saved amount equals its target is reported.  A row whose saved
    amount is its target minus 0.01 is not reported (no other row sharing
    its text) as long as that binary64 difference lies below the target; for
    a target as large as 1e16 the difference rounds back to the target. *)
Theorem achieved_goals_spec (s : store) :
  let r := fst (budget_summary s) in
  sm_achieved_goals r
  = map g_goal (filter Sql.goal_achieved (financial_goals s))
  /\ (forall name,
        In name (sm_achieved_goals r) <->
        exists g, In g (financial_goals s) /\ g_goal g = name
                  /\ PrimFloat.leb (g_target_amount g) (g_saved_amount g)
                     = true)
  /\ (forall g, In g (financial_goals s) ->
        PrimFloat.eqb (g_saved_amount g) (g_target_amount g) = true ->
        In (g_goal g) (sm_achieved_goals r))
  /\ (forall g, In g (financial_goals s) ->
        (forall g', In g' (financial_goals s) -> g_goal g' = g_goal g ->
                    g' = g) ->
        g_saved_amount g = g_target_amount g - 0.01 ->
        PrimFloat.ltb (g_saved_amount g) (g_target_amount g) = true ->
        ~ In (g_goal g) (sm_achieved_goals r)).
Proof.
  intros r. subst r. rewrite budget_summary_unfold. cbn [fst]. cbv zeta.
  cbn [sm_achieved_goals]. unfold Sql.select_achieved_goals.
  assert (Hname : forall name,
             In name (map g_goal
                        (filter Sql.goal_achieved (financial_goals s))) <->
             exists g, In g (financial_goals s) /\ g_goal g = name
                       /\ PrimFloat.leb (g_target_amount g)
                            (g_saved_amount g) = true).
  { intros name. rewrite in_map_iff. unfold Sql.goal_achieved.
    split; intros [g H]; exists g; rewrite filter_In in *; tauto. }
  split; [reflexivity|]. split; [exact Hname|]. split.
  - intros g Hin He. apply Hname. exists g.
    split; [exact Hin|]. split; [reflexivity|].
    now apply FloatOrder.eqb_leb.
  - intros g Hin Huniq _ Hlt H. apply Hname in H.
    destruct H as [g' (Hin' & Hn & Hle)].
    rewrite (Huniq g' Hin' Hn) in Hle.
    apply FloatOrder.ltb_not_leb in Hlt. congruence.
Qed.

(** At a target of 100.0: saved 100.0 is achieved, saved 100.0 - 0.01 is
    not. *)
Example achieved_at_100 :
  sm_achieved_goals
    (fst (budget_summary
            (with_goals seed [mk_goal 1 "Bike" 100 100;
                              mk_goal 2 "Tent" 100 (100 - 0.01)])))
  = ["Bike"].
Proof. vm_compute. reflexivity. Qed.

(** At a target of 1e16 the goal saved at target - 0.01 is reported as
    achieved. *)
Lemma achieved_below_target_1e16 :
  g_saved_amount (mk_goal 1 "Yacht" 1e16 (1e16 - 0.01))
  = g_target_amount (mk_goal 1 "Yacht" 1e16 (1e16 - 0.01)) - 0.01
  /\ In "Yacht"
       (sm_achieved_goals
          (fst (budget_summary
                  (with_goals seed [mk_goal 1 "Yacht" 1e16 (1e16 - 0.01)])))).
Proof. split; [reflexivity|]. vm_compute. left; reflexivity. Qed.

(** ** Several budget rows with one category text *)





(** * Further properties of the store functions *)

(** ** Adding expense and income categories *)

Lemma next_id_above (ids : list Z) :
  (0 < next_id ids)%Z /\ Forall (fun i => (i < next_id ids)%Z) ids.
Proof.
  unfold next_id. induction ids as [|i ids [IH1 IH2]]; simpl.
  - split; [lia | constructor].
  - split; [lia|]. constructor; [lia|].
    eapply Forall_impl; [|exact IH2]. simpl. intros; lia.
Qed.

Lemma fetchone_select_expense_category_none (c : string) (s : store) :
  (forall r, In r (expenses s) -> e_category r <> c) ->
  fetchone (Sql.select_expense_category c s) = None.
Proof.
  unfold Sql.select_expense_category, fetchone.
  induction (expenses s) as [|x l IH]; simpl; intros H; [reflexivity|].
  destruct (String.eqb_spec (e_category x) c) as [E|N].
  - destruct (H x (or_introl eq_refl) E).
  - apply IH. intros r Hr. apply H. now right.
Qed.

Lemma next_id_in_range (ids : list Z) :
  rowids_in_range ids -> (next_id ids <= max_rowid)%Z.
Proof.
  unfold rowids_in_range, next_id. intros H.
  assert (Hm : (fold_right Z.max 0 ids < max_rowid)%Z).
  { induction H as [|i ids Hi _ IH]; simpl.
    - unfold max_rowid. lia.
    - lia. }
  lia.
Qed.

Lemma seed_rowids_in_range :
  rowids_in_range (map e_id (expenses seed))
  /\ rowids_in_range (map i_id (income seed))
  /\ rowids_in_range (map b_id (budgets seed))
  /\ rowids_in_range (map g_id (financial_goals seed)).
Proof.
  unfold rowids_in_range, max_rowid. simpl.
  repeat split; repeat (constructor; [lia|]); constructor.
Qed.

(** X1: in a table whose rowids are positive and below the largest rowid,
    a category that no expense row carries is added with a storable
    amount: [insert_expense] reports success and appends one row with the
    given category and date and the amount as the column stores it, under a
    rowid larger than every rowid of the table; the earlier rows and the
    other three tables stay as they are. *)
Theorem insert_expense_fresh (s : store) (c : string) (a : float)
    (d : string) :
  (forall r, In r (expenses s) -> e_category r <> c) ->
  rowids_in_range (map e_id (expenses s)) ->
  storable a ->
  exists id : Z,
    insert_expense c a d s
    = (ExpenseAdded,
       mk_store (expenses s ++ [mk_expense id c (sql_real a) d]) (income s)
         (budgets s) (financial_goals s))
    /\ (0 < id <= max_rowid)%Z
    /\ (forall r, In r (expenses s) -> (e_id r < id)%Z).
Proof.
  intros H Hr _. exists (next_id (map e_id (expenses s))).
  split; [|split].
  - unfold insert_expense, bind, query.
    rewrite (fetchone_select_expense_category_none c s H). reflexivity.
  - split; [apply next_id_above | now apply next_id_in_range].
  - intros r Hin.
    pose proof (proj2 (next_id_above (map e_id (expenses s)))) as Hall.
    rewrite Forall_forall in Hall. apply Hall. now apply in_map.
Qed.

Lemma insert_expense_fresh_witness :
  (forall r, In r (expenses seed) -> e_category r <> "Rent")
  /\ rowids_in_range (map e_id (expenses seed))
  /\ storable 700
  /\ exists id : Z,
       insert_expense "Rent" 700 "2025-01-01" seed
       = (ExpenseAdded,
          mk_store
            (expenses seed
               ++ [mk_expense id "Rent" (sql_real 700) "2025-01-01"])
            (income seed) (budgets seed) (financial_goals seed))
       /\ (0 < id <= max_rowid)%Z
       /\ (forall r, In r (expenses seed) -> (e_id r < id)%Z).
Proof.
  assert (H : forall r, In r (expenses seed) -> e_category r <> "Rent").
  { simpl. intros r Hr.
    repeat (destruct Hr as [<-|Hr]; [discriminate|]). destruct Hr. }
  assert (Hs : storable 700) by reflexivity.
  split; [exact H|]. split; [exact (proj1 seed_rowids_in_range)|].
  split; [exact Hs|].
  exact (insert_expense_fresh seed "Rent" 700 "2025-01-01" H
           (proj1 seed_rowids_in_range) Hs).
Defined.

(** X2: whatever the store, once [insert_expense] has run for a category a
    second [insert_expense] for it is refused and changes nothing, with any
    amount and date. *)
Theorem insert_expense_twice (s : store) (c : string) (a a' : float)
    (d d' : string) :
  let s1 := snd (insert_expense c a d s) in
  insert_expense c a' d' s1 = (DuplicateCategory, s1).
Proof.
  intros s1.
  assert (H : exists r, In r (expenses s1) /\ e_category r = c).
  { subst s1. unfold insert_expense, bind, query.
    destruct (fetchone (Sql.select_expense_category c s)) as [x|] eqn:E.
    - simpl. unfold fetchone, Sql.select_expense_category in E.
      induction (expenses s) as [|r l IH]; simpl in E; [discriminate|].
      destruct (String.eqb_spec (e_category r) c) as [Ec|N].
      + exists r. split; [now left | exact Ec].
      + destruct (IH E) as [r' [Hin Hc]]. exists r'. split; [now right|auto].
    - simpl. eexists. split; [apply in_or_app; right; left; reflexivity|].
      reflexivity. }
  unfold insert_expense at 1, bind, query.
  rewrite (fetchone_select_expense_category c s1 H). reflexivity.
Qed.

Lemma fetchone_select_income_category (c : string) (s : store) :
  fetchone (Sql.select_income_category c s)
  = if existsb (fun r => String.eqb (i_category r) c) (income s)
    then Some c else None.
Proof.
  unfold Sql.select_income_category, fetchone.
  induction (income s) as [|x l IH]; simpl; [reflexivity|].
  destruct (String.eqb_spec (i_category x) c) as [E|N]; simpl.
  - now rewrite E.
  - exact IH.
Qed.

(** X3: [insert_income] guards the income categories the same way: a
    category some income row carries is refused and the store is returned
    untouched; a new one, in a table whose rowids are positive and below the
    largest rowid and with a storable amount, is appended as one row with
    the amount as the column stores it, under a rowid larger than every
    rowid of the table, the other tables unchanged. *)
Theorem insert_income_guard (s : store) (c : string) (a : float)
    (d : string) :
  ((exists r, In r (income s) /\ i_category r = c) ->
   insert_income c a d s = (DuplicateCategory, s))
  /\ ((forall r, In r (income s) -> i_category r <> c) ->
      rowids_in_range (map i_id (income s)) ->
      storable a ->
      exists id : Z,
        insert_income c a d s
        = (IncomeAdded,
           mk_store (expenses s)
             (income s ++ [mk_income id c (sql_real a) d])
             (budgets s) (financial_goals s))
        /\ (0 < id <= max_rowid)%Z
        /\ (forall r, In r (income s) -> (i_id r < id)%Z)).
Proof.
  split.
  - intros [r [Hin Hc]]. unfold insert_income, bind, query.
    rewrite fetchone_select_income_category.
    assert (E : existsb (fun r => String.eqb (i_category r) c) (income s)
                = true).
    { apply existsb_exists. exists r. split; [exact Hin|].
      now apply String.eqb_eq. }
    rewrite E. reflexivity.
  - intros H Hr _. exists (next_id (map i_id (income s))).
    split; [|split].
    + unfold insert_income, bind, query.
      rewrite fetchone_select_income_category.
      assert (E : existsb (fun r => String.eqb (i_category r) c) (income s)
                  = false).
      { apply not_true_is_false. intros Ht. apply existsb_exists in Ht.
        destruct Ht as [r [Hin Hc]]. apply String.eqb_eq in Hc.
        exact (H r Hin Hc). }
      rewrite E. reflexivity.
    + split; [apply next_id_above | now apply next_id_in_range].
    + intros r Hin.
      pose proof (proj2 (next_id_above (map i_id (income s)))) as Hall.
      rewrite Forall_forall in Hall. apply Hall. now apply in_map.
Qed.

(** Both parts at the seed data: Salary is refused, Bonus is appended as
    row 6. *)
Example insert_income_at_seed :
  insert_income "Salary" 10 "2025-01-01" seed = (DuplicateCategory, seed)
  /\ income (snd (insert_income "Bonus" 250 "2025-01-01" seed))
     = income seed ++ [mk_income 6 "Bonus" 250 "2025-01-01"].
Proof. split; reflexivity. Qed.

(** ** What a menu choice does to each table *)

Lemma table_change_NoDup (cats cats' : list string) :
  table_change cats cats' -> NoDup cats -> NoDup cats'.
Proof.
  intros [ |c Hc|c] H.
  - exact H.
  - apply NoDup_app_remove_l with (l := []). simpl.
    apply NoDup_Add with (a := c) (l := cats).
    + rewrite <- (app_nil_r cats) at 1. apply Add_app.
    + now split.
  - now apply NoDup_filter.
Qed.

Lemma map_filter_key {R : Type} (key : R -> string) (c : string)
    (rows : list R) :
  map key (filter (fun r => negb (String.eqb (key r) c)) rows)
  = filter (fun x => negb (String.eqb x c)) (map key rows).
Proof.
  induction rows as [|r rows IH]; simpl; [reflexivity|].
  destruct (String.eqb (key r) c); simpl; now rewrite IH.
Qed.

Lemma fetchone_none_no_key {R : Type} (key : R -> string) (c : string)
    (rows : list R) :
  hd_error (filter (fun r => String.eqb (key r) c) rows) = None ->
  ~ In c (map key rows).
Proof.
  induction rows as [|r rows IH]; simpl; intros H; [tauto|].
  destruct (String.eqb_spec (key r) c) as [E|N]; [discriminate|].
  intros [E|Hin]; [contradiction | now apply IH].
Qed.

(** An UPDATE keeps the rowids and the text keys of its table. *)
Lemma update_expenses_keys (a : float) (c : string) (s : store) :
  map e_category (expenses (Sql.update_expenses a c s))
  = map e_category (expenses s)
  /\ map e_id (expenses (Sql.update_expenses a c s)) = map e_id (expenses s).
Proof.
  simpl. rewrite !map_map.
  split; apply map_ext; intros r;
    destruct (String.eqb (e_category r) c); reflexivity.
Qed.

Lemma update_income_keys (a : float) (c : string) (s : store) :
  map i_category (income (Sql.update_income a c s))
  = map i_category (income s)
  /\ map i_id (income (Sql.update_income a c s)) = map i_id (income s).
Proof.
  simpl. rewrite !map_map.
  split; apply map_ext; intros r;
    destruct (String.eqb (i_category r) c); reflexivity.
Qed.

(** Every menu choice changes the expense categories in one of the three
    ways. *)
Lemma run_expense_categories (o : op) (s : store) :
  table_change (map e_category (expenses s))
    (map e_category (expenses (run o s))).
Proof.
  destruct o; cbn [run]; try apply change_none.
  - unfold insert_expense, bind, query.
    destruct (fetchone (Sql.select_expense_category c s)) eqn:E; simpl.
    + apply change_none.
    + rewrite map_app. simpl. apply change_append.
      unfold fetchone, Sql.select_expense_category in E.
      apply (fetchone_none_no_key e_category).
      destruct (filter _ (expenses s)); [reflexivity | discriminate].
  - change (snd (update_expense c a s)) with (Sql.update_expenses a c s).
    rewrite (proj1 (update_expenses_keys a c s)). apply change_none.
  - simpl. rewrite map_filter_key. apply change_remove.
  - unfold insert_income, bind, query.
    destruct (fetchone _); apply change_none.
  - unfold set_budget, bind, query.
    destruct (fetchone _); apply change_none.
  - unfold update_financial_goal, bind, query.
    destruct (fetchone _); apply change_none.
  - rewrite budget_summary_unfold. apply change_none.
Qed.

(** X4: at most one expense row per category text holds of the seed data,
    is kept by every menu choice from any store where it holds, and
    therefore holds in every reachable store: [insert_expense] refuses a
    text already present, updates keep the texts, deletes only remove. *)
Theorem expense_category_unique :
  expense_unique seed
  /\ (forall o s, expense_unique s -> expense_unique (run o s))
  /\ (forall s, reachable s -> expense_unique s).
Proof.
  assert (H0 : expense_unique seed).
  { unfold expense_unique. simpl.
    repeat (constructor; [simpl; intuition discriminate|]). constructor. }
  assert (Hstep : forall o s, expense_unique s -> expense_unique (run o s)).
  { intros o s. apply table_change_NoDup, run_expense_categories. }
  split; [exact H0|]. split; [exact Hstep|].
  intros s H. induction H as [|s o _ IH _]; auto.
Qed.

Lemma run_income_categories (o : op) (s : store) :
  table_change (map i_category (income s))
    (map i_category (income (run o s))).
Proof.
  destruct o; cbn [run]; try apply change_none.
  - unfold insert_expense, bind, query.
    destruct (fetchone _); apply change_none.
  - unfold insert_income, bind, query.
    destruct (fetchone (Sql.select_income_category c s)) eqn:E; simpl.
    + apply change_none.
    + rewrite map_app. simpl. apply change_append.
      unfold fetchone, Sql.select_income_category in E.
      apply (fetchone_none_no_key i_category).
      destruct (filter _ (income s)); [reflexivity | discriminate].
  - change (snd (update_income c a s)) with (Sql.update_income a c s).
    rewrite (proj1 (update_income_keys a c s)). apply change_none.
  - simpl. rewrite map_filter_key. apply change_remove.
  - unfold set_budget, bind, query.
    destruct (fetchone _); apply change_none.
  - unfold update_financial_goal, bind, query.
    destruct (fetchone _); apply change_none.
  - rewrite budget_summary_unfold. apply change_none.
Qed.

(** X5: at most one income row per category text, likewise: true of the
    seed data, kept by every menu choice, true in every reachable store. *)
Theorem income_category_unique :
  income_unique seed
  /\ (forall o s, income_unique s -> income_unique (run o s))
  /\ (forall s, reachable s -> income_unique s).
Proof.
  assert (H0 : income_unique seed).
  { unfold income_unique. simpl.
    repeat (constructor; [simpl; intuition discriminate|]). constructor. }
  assert (Hstep : forall o s, income_unique s -> income_unique (run o s)).
  { intros o s. apply table_change_NoDup, run_income_categories. }
  split; [exact H0|]. split; [exact Hstep|].
  intros s H. induction H as [|s o _ IH _]; auto.
Qed.

(** ** Budgets follow the expense categories *)

Lemma run_keeps_budgets_have_expense (o : op) (s : store) :
  offered s o -> budgets_have_expense s -> budgets_have_expense (run o s).
Proof.
  unfold budgets_have_expense. intros Hoff H.
  destruct o; cbn [run]; try exact H.
  - unfold insert_expense, bind, query.
    destruct (fetchone _); simpl; [exact H|].
    intros b Hb. rewrite map_app. apply in_or_app. left. now apply H.
  - change (snd (update_expense c a s)) with (Sql.update_expenses a c s).
    rewrite (proj1 (update_expenses_keys a c s)). exact H.
  - simpl. intros b Hb. apply filter_In in Hb. destruct Hb as [Hb Hc].
    rewrite map_filter_key. apply filter_In. split; [now apply H|].
    exact Hc.
  - unfold insert_income, bind, query.
    destruct (fetchone _); exact H.
  - simpl in Hoff. unfold Sql.select_distinct_expense_categories in Hoff.
    rewrite in_distinct in Hoff.
    unfold set_budget, bind, query.
    destruct (fetchone _); simpl; intros b Hb.
    + apply in_map_iff in Hb. destruct Hb as [b0 [E Hb0]].
      destruct (String.eqb (b_category b0) c); subst b; simpl; now apply H.
    + apply in_app_or in Hb. destruct Hb as [Hb|[<-|[]]]; [now apply H|].
      exact Hoff.
  - unfold update_financial_goal, bind, query.
    destruct (fetchone _); exact H.
  - rewrite budget_summary_unfold. exact H.
Qed.

(** X6: a menu choice whose category prompt returned a text of the list
    it printed keeps every budget row with a category that has an expense
    row: [set_budget] then works with a category of the expenses table,
    and [delete_expense] takes the budget rows of the category away
    together with its expense rows.  (A prompt whose read fails returns
    [None] instead; that case is not a choice of [op].) *)
Theorem budgets_follow_expenses (o : op) (s : store) :
  offered s o -> budgets_have_expense s -> budgets_have_expense (run o s).
Proof. exact (run_keeps_budgets_have_expense o s). Qed.

Lemma budgets_follow_expenses_witness :
  offered seed (SetBudget "Groceries" 10)
  /\ budgets_have_expense seed
  /\ budgets_have_expense (run (SetBudget "Groceries" 10) seed).
Proof.
  assert (Hoff : offered seed (SetBudget "Groceries" 10))
    by (vm_compute; tauto).
  assert (H0 : budgets_have_expense seed).
  { intros b Hb. simpl in Hb.
    repeat (destruct Hb as [<-|Hb]; [simpl; tauto|]). destruct Hb. }
  split; [exact Hoff|]. split; [exact H0|].
  exact (budgets_follow_expenses (SetBudget "Groceries" 10) seed Hoff H0).
Defined.

(** Without the check of the prompt the property can be lost: a budget for
    a text that is no expense category stays an orphan. *)
Example orphan_budget_when_not_offered :
  ~ budgets_have_expense (run (SetBudget "Holidays" 100) seed).
Proof.
  intros H.
  specialize (H (mk_budget 6 "Holidays" 100)). simpl in H.
  assert (Hin : In "Holidays"
                  ["Groceries"; "Utilities"; "Transport"; "Dining";
                   "Entertainment"]) by (apply H; tauto).
  simpl in Hin. intuition discriminate.
Qed.

(** ** Rowids *)

Lemma rowids_ok_append (ids : list Z) :
  rowids_ok ids -> rowids_ok (ids ++ [next_id ids]).
Proof.
  intros [Hnd Hpos]. destruct (next_id_above ids) as [Hp Hlt]. split.
  - apply NoDup_app_remove_l with (l := []). simpl.
    apply NoDup_Add with (a := next_id ids) (l := ids).
    + pose proof (Add_app (next_id ids) ids []) as HA.
      now rewrite app_nil_r in HA.
    + split; [exact Hnd|]. intros Hin.
      rewrite Forall_forall in Hlt. specialize (Hlt _ Hin). lia.
  - apply Forall_app. split; [exact Hpos|]. constructor; [exact Hp|constructor].
Qed.

Lemma rowids_ok_filter {R : Type} (key : R -> Z) (keep : R -> bool)
    (rows : list R) :
  rowids_ok (map key rows) -> rowids_ok (map key (filter keep rows)).
Proof.
  unfold rowids_ok. induction rows as [|r rows IH]; simpl; [tauto|].
  intros [Hnd Hpos]. apply NoDup_cons_iff in Hnd. destruct Hnd as [Hr Hnd].
  apply Forall_cons_iff in Hpos. destruct Hpos as [Hp Hpos].
  destruct (IH (conj Hnd Hpos)) as [IH1 IH2].
  destruct (keep r); simpl; [|now split].
  split.
  - apply NoDup_cons_iff. split; [|exact IH1].
    rewrite in_map_iff. intros [y [E Hy]]. apply filter_In in Hy.
    apply Hr, in_map_iff. exists y. tauto.
  - now constructor.
Qed.

Lemma update_budgets_ids (a : float) (c : string) (s : store) :
  map b_id (budgets (Sql.update_budgets a c s)) = map b_id (budgets s).
Proof.
  simpl. rewrite map_map. apply map_ext. intros r.
  destruct (String.eqb (b_category r) c); reflexivity.
Qed.

Lemma update_financial_goals_ids (v : float) (g : string) (s : store) :
  map g_id (financial_goals (Sql.update_financial_goals v g s))
  = map g_id (financial_goals s).
Proof.
  simpl. rewrite map_map. apply map_ext. intros r.
  destruct (String.eqb (g_goal r) g); reflexivity.
Qed.

Ltac keys_split := refine (conj _ (conj _ (conj _ _))); try assumption.

Lemma run_keeps_keys_ok (o : op) (s : store) :
  keys_ok s -> keys_ok (run o s).
Proof.
  unfold keys_ok. intros (He & Hi & Hb & Hg).
  destruct o; cbn [run]; try (keys_split; fail).
  - unfold insert_expense, bind, query.
    destruct (fetchone _); simpl; keys_split.
    rewrite map_app. now apply rowids_ok_append.
  - change (snd (update_expense c a s)) with (Sql.update_expenses a c s).
    rewrite (proj2 (update_expenses_keys a c s)). keys_split.
  - simpl. keys_split; now apply rowids_ok_filter.
  - unfold insert_income, bind, query.
    destruct (fetchone _); simpl; keys_split.
    rewrite map_app. now apply rowids_ok_append.
  - change (snd (update_income c a s)) with (Sql.update_income a c s).
    rewrite (proj2 (update_income_keys a c s)). keys_split.
  - simpl. keys_split. now apply rowids_ok_filter.
  - unfold set_budget, bind, query.
    destruct (fetchone _).
    + change (snd (let (_, s') := exec (Sql.update_budgets a c) s in
                   ret BudgetUpdated s'))
        with (Sql.update_budgets a c s).
      rewrite update_budgets_ids. keys_split.
    + simpl. keys_split. rewrite map_app. now apply rowids_ok_append.
  - simpl. keys_split. rewrite map_app. now apply rowids_ok_append.
  - unfold update_financial_goal, bind, query.
    destruct (fetchone _); [|keys_split].
    change (snd (let (_, s') := exec (Sql.update_financial_goals v g) s in
                 ret GoalUpdated s'))
      with (Sql.update_financial_goals v g s).
    rewrite update_financial_goals_ids. keys_split.
  - simpl. keys_split. now apply rowids_ok_filter.
  - rewrite budget_summary_unfold. keys_split.
Qed.

(** X7: in every reachable store the rowids of each table are positive and
    pairwise distinct: an INSERT takes one more than the largest rowid in
    use, an UPDATE keeps them, a DELETE only removes rows. *)
Theorem rowids_unique :
  keys_ok seed
  /\ (forall o s, keys_ok s -> keys_ok (run o s))
  /\ (forall s, reachable s -> keys_ok s).
Proof.
  assert (H0 : keys_ok seed).
  { unfold keys_ok, rowids_ok. simpl.
    repeat split;
      try (repeat (constructor; [simpl; intuition discriminate|]);
           constructor);
      repeat (constructor; [reflexivity|]); constructor. }
  split; [exact H0|]. split; [exact run_keeps_keys_ok|].
  intros s H. induction H as [|s o _ IH _]; [exact H0|].
  now apply run_keeps_keys_ok.
Qed.

(** ** Setting a budget and reading it back *)

Section BudgetRows.

Variables (a : float) (c : string).

Let upd (r : budget_row) : budget_row :=
  if String.eqb (b_category r) c
  then mk_budget (b_id r) (b_category r) a else r.

Lemma lookup_after_update (c' : string) (rows : list budget_row) :
  hd_error (map b_budget_amount
              (filter (fun r => String.eqb (b_category r) c') (map upd rows)))
  = if String.eqb c' c
    then option_map (fun _ => a)
           (hd_error (map b_budget_amount
                        (filter (fun r => String.eqb (b_category r) c) rows)))
    else hd_error (map b_budget_amount
                     (filter (fun r => String.eqb (b_category r) c') rows)).
Proof.
  induction rows as [|r rows IH]; simpl.
  - now destruct (String.eqb c' c).
  - assert (Hk : b_category (upd r) = b_category r)
      by (unfold upd; destruct (String.eqb (b_category r) c); reflexivity).
    rewrite Hk.
    destruct (String.eqb c' c) eqn:E2.
    + apply String.eqb_eq in E2. subst c'.
      destruct (String.eqb (b_category r) c) eqn:E1; [|exact IH].
      simpl. unfold upd. rewrite E1. reflexivity.
    + destruct (String.eqb (b_category r) c') eqn:E3; [|exact IH].
      simpl. unfold upd.
      destruct (String.eqb (b_category r) c) eqn:E1; [|reflexivity].
      apply String.eqb_eq in E1, E3. subst c'.
      rewrite <- E1, String.eqb_refl in E2. discriminate.
Qed.


End BudgetRows.

(** The lookup of a category after [set_budget]. *)
Lemma budget_of_set_budget (c c' : string) (a : float) (s : store) :
  budget_of c' (snd (set_budget c a s))
  = if String.eqb c' c then Some (sql_real a) else budget_of c' s.
Proof.
  unfold set_budget, bind, query.
  destruct (fetchone (Sql.select_budget_amount c s)) as [b|] eqn:E.
  - change (budget_of c' (Sql.update_budgets a c s)
            = if String.eqb c' c then Some (sql_real a)
              else budget_of c' s).
    unfold budget_of, Sql.select_budget_amount, fetchone.
    cbn [budgets Sql.update_budgets].
    rewrite (lookup_after_update (sql_real a) c c' (budgets s)).
    unfold fetchone, Sql.select_budget_amount in E. rewrite E. reflexivity.
  - change (budget_of c' (Sql.insert_into_budgets c a s)
            = if String.eqb c' c then Some (sql_real a)
              else budget_of c' s).
    unfold budget_of, Sql.select_budget_amount, fetchone in *.
    cbn [budgets Sql.insert_into_budgets].
    rewrite filter_app, map_app. simpl.
    destruct (String.eqb_spec c c') as [<-|N].
    + rewrite String.eqb_refl.
      destruct (map b_budget_amount
                  (filter (fun r => String.eqb (b_category r) c) (budgets s)));
        [reflexivity | discriminate].
    + destruct (String.eqb_spec c' c) as [E'|_]; [now destruct N|].
      simpl. now rewrite app_nil_r.
Qed.

(** X8: after [set_budget] for a category with a storable amount,
    [view_budget] shows the amount just set as the column stores it (the
    amount itself, 0.0 for -0.0), whether the budget was inserted or
    updated and even when several budget rows carry the category; the
    budget shown for any other category is the one shown before, and the
    expenses, income and goals tables are unchanged. *)
Theorem set_budget_then_view (s : store) (c : string) (a : float) :
  storable a ->
  let s1 := snd (set_budget c a s) in
  fst (view_budget c s1) = Some (sql_real a)
  /\ (forall c', c' <> c -> fst (view_budget c' s1) = fst (view_budget c' s))
  /\ expenses s1 = expenses s /\ income s1 = income s
  /\ financial_goals s1 = financial_goals s.
Proof.
  intros _ s1. subst s1.
  split; [|split].
  - change (budget_of c (snd (set_budget c a s)) = Some (sql_real a)).
    now rewrite budget_of_set_budget, String.eqb_refl.
  - intros c' N.
    change (budget_of c' (snd (set_budget c a s)) = budget_of c' s).
    rewrite budget_of_set_budget.
    destruct (String.eqb_spec c' c); [contradiction|reflexivity].
  - unfold set_budget, bind, query.
    destruct (fetchone _); repeat split; reflexivity.
Qed.

(** The theorem at the seed data, once with 25.0 and once with -0.0, which
    is shown as 0.0. *)
Lemma set_budget_then_view_witness :
  storable 25 /\ storable (-0)
  /\ fst (view_budget "Dining" (snd (set_budget "Dining" 25 seed))) = Some 25
  /\ fst (view_budget "Dining" (snd (set_budget "Dining" (-0) seed)))
     = Some 0.
Proof.
  assert (H1 : storable 25) by reflexivity.
  assert (H2 : storable (-0)) by reflexivity.
  split; [exact H1|]. split; [exact H2|]. split.
  - exact (proj1 (set_budget_then_view seed "Dining" 25 H1)).
  - exact (proj1 (set_budget_then_view seed "Dining" (-0) H2)).
Defined.


(** ** After an expense category was deleted *)

Lemma no_expense_after_delete (c : string) (s : store) :
  forall r, In r (expenses (snd (delete_expense c s))) -> e_category r <> c.
Proof.
  simpl. intros r Hr. apply filter_In in Hr. destruct Hr as [_ Hr].
  now apply negb_true_iff, String.eqb_neq in Hr.
Qed.

Lemma budget_of_after_delete (c : string) (s : store) :
  budget_of c (snd (delete_expense c s)) = None.
Proof.
  apply budget_of_none. simpl. intros r Hr.
  apply filter_In in Hr. destruct Hr as [_ Hr].
  now apply negb_true_iff, String.eqb_neq in Hr.
Qed.

Lemma filter_idempotent {A : Type} (keep : A -> bool) (rows : list A) :
  filter keep (filter keep rows) = filter keep rows.
Proof.
  apply filter_all. intros x Hx. now apply filter_In in Hx.
Qed.

(** X10: once [delete_expense] has run for a category, the category is gone
    from the list the prompts offer, [view_budget] finds no budget for it,
    deleting it again changes nothing, and [insert_expense] accepts it as a
    new category. *)
Theorem delete_expense_clears (s : store) (c : string) (a : float)
    (d : string) :
  let s1 := snd (delete_expense c s) in
  ~ In c (Sql.select_distinct_expense_categories s1)
  /\ fst (view_budget c s1) = None
  /\ delete_expense c s1 = (ExpenseDeleted, s1)
  /\ fst (insert_expense c a d s1) = ExpenseAdded.
Proof.
  intros s1. pose proof (no_expense_after_delete c s) as Hno.
  fold s1 in Hno. split; [|split; [|split]].
  - unfold Sql.select_distinct_expense_categories.
    rewrite in_distinct, in_map_iff. intros [r [Hc Hr]].
    exact (Hno r Hr Hc).
  - exact (budget_of_after_delete c s).
  - subst s1. unfold delete_expense, bind, exec, ret. simpl.
    unfold Sql.delete_from_budgets, Sql.delete_from_expenses. simpl.
    now rewrite !filter_idempotent.
  - unfold insert_expense, bind, query.
    now rewrite (fetchone_select_expense_category_none c s1 Hno).
Qed.

(** ** The summary after a change *)

(** X11: for a category with expenses, after [set_budget] with a storable
    amount the summary never lists it as having no budget, and lists it as
    over budget, with its unchanged spending and the amount as the column
    stores it, exactly when the spending exceeds the amount set. *)
Theorem summary_after_set_budget (s : store) (c : string) (a spent : float) :
  In (c, spent) (Sql.select_expenses_by_category s) ->
  storable a ->
  let r := fst (budget_summary (snd (set_budget c a s))) in
  (forall x, ~ In (c, x) (sm_no_budget_categories r))
  /\ (forall x y,
        In (c, x, y) (sm_over_budget_categories r) <->
        x = spent /\ y = sql_real a /\ PrimFloat.ltb a spent = true).
Proof.
  intros Hin _ r. subst r. rewrite budget_summary_unfold. cbn [fst].
  cbv zeta. cbn [sm_no_budget_categories sm_over_budget_categories].
  assert (Eg : Sql.select_expenses_by_category (snd (set_budget c a s))
               = Sql.select_expenses_by_category s).
  { unfold set_budget, bind, query. destruct (fetchone _); reflexivity. }
  assert (Eb : budget_of c (snd (set_budget c a s)) = Some (sql_real a))
    by (now rewrite budget_of_set_budget, String.eqb_refl).
  rewrite Eg. split.
  - intros x H. apply in_no_budget_entries in H. destruct H as [_ H].
    congruence.
  - intros x y. rewrite in_over_entries, Eb. split.
    + intros (Hx & Ey & Hlt). inversion Ey; subst y.
      apply in_expense_groups in Hx. apply in_expense_groups in Hin.
      destruct Hx as [_ ->]. destruct Hin as [_ ->].
      rewrite FloatOrder.ltb_sql_real_l in Hlt. auto.
    + intros (-> & -> & Hlt).
      rewrite FloatOrder.ltb_sql_real_l. auto.
Qed.

Lemma summary_after_set_budget_witness :
  In ("Dining", 30) (Sql.select_expenses_by_category seed)
  /\ storable 25
  /\ (forall x,
        ~ In ("Dining", x)
            (sm_no_budget_categories
               (fst (budget_summary (snd (set_budget "Dining" 25 seed))))))
  /\ In ("Dining", 30, 25)
       (sm_over_budget_categories
          (fst (budget_summary (snd (set_budget "Dining" 25 seed))))).
Proof.
  assert (Hin : In ("Dining", 30) (Sql.select_expenses_by_category seed))
    by (vm_compute; tauto).
  assert (Hs : storable 25) by reflexivity.
  destruct (summary_after_set_budget seed "Dining" 25 30 Hin Hs) as [H1 H2].
  split; [exact Hin|]. split; [exact Hs|]. split; [exact H1|].
  apply H2. repeat split; reflexivity.
Defined.

(** X12: after [delete_expense] the summary has no entry for the category
    in either list. *)
Theorem summary_after_delete_expense (s : store) (c : string) :
  let r := fst (budget_summary (snd (delete_expense c s))) in
  (forall x y, ~ In (c, x, y) (sm_over_budget_categories r))
  /\ (forall x, ~ In (c, x) (sm_no_budget_categories r)).
Proof.
  intros r. subst r. rewrite budget_summary_unfold. cbn [fst]. cbv zeta.
  cbn [sm_no_budget_categories sm_over_budget_categories].
  assert (Hno : forall x,
             ~ In (c, x)
                 (Sql.select_expenses_by_category (snd (delete_expense c s)))).
  { intros x H. apply expense_groups_spec in H.
    destruct H as [[r [Hr Hc]] _].
    exact (no_expense_after_delete c s r Hr Hc). }
  split.
  - intros x y H. apply in_over_entries in H. destruct H as [H _].
    exact (Hno x H).
  - intros x H. apply in_no_budget_entries in H. destruct H as [H _].
    exact (Hno x H).
Qed.

(** ** The two lists of the summary *)

Lemma NoDup_distinct (l : list string) : NoDup (distinct l).
Proof.
  induction l as [|x l IH]; simpl; constructor.
  - rewrite filter_In, String.eqb_refl. simpl. intros [_ H]. discriminate.
  - now apply NoDup_filter.
Qed.

Section Entries.

Variables X E : Type.
Variable key_x : X -> string.
Variable key_e : E -> string.
Variable entry : X -> list E.
Hypothesis entry_small :
  forall x, entry x = [] \/ exists e, entry x = [e] /\ key_e e = key_x x.

Lemma entries_keys (xs : list X) (e : E) :
  In e (flat_map entry xs) -> In (key_e e) (map key_x xs).
Proof.
  rewrite in_flat_map. intros [x [Hx He]].
  destruct (entry_small x) as [E0|[e0 [E0 K]]]; rewrite E0 in He.
  - destruct He.
  - destruct He as [<-|[]]. rewrite K. now apply in_map.
Qed.

Lemma entries_NoDup (xs : list X) :
  NoDup (map key_x xs) -> NoDup (map key_e (flat_map entry xs)).
Proof.
  induction xs as [|x xs IH]; simpl; intros H; [constructor|].
  apply NoDup_cons_iff in H. destruct H as [Hx H].
  destruct (entry_small x) as [E0|[e0 [E0 K]]]; rewrite E0; simpl.
  - now apply IH.
  - constructor; [|now apply IH].
    rewrite in_map_iff. intros [e [Ke He]].
    apply entries_keys in He. congruence.
Qed.

End Entries.

Lemma over_entry_small (s : store) (row : string * float) :
  over_entry s row = []
  \/ exists e, over_entry s row = [e] /\ fst (fst e) = fst row.
Proof.
  unfold over_entry. destruct (budget_of (fst row) s) as [b|]; [|now left].
  destruct (PrimFloat.ltb b (snd row)); [right|now left].
  eexists. split; reflexivity.
Qed.

Lemma no_budget_entry_small (s : store) (row : string * float) :
  no_budget_entry s row = []
  \/ exists e, no_budget_entry s row = [e] /\ fst e = fst row.
Proof.
  unfold no_budget_entry. destruct (budget_of (fst row) s); [now left|right].
  eexists. split; reflexivity.
Qed.

Lemma expense_groups_keys (s : store) :
  map fst (Sql.select_expenses_by_category s)
  = sort_texts (distinct (map e_category (expenses s))).
Proof.
  unfold Sql.select_expenses_by_category. rewrite map_map. simpl.
  apply map_id.
Qed.

(** X13: in every summary a category is listed at most once in the
    over-budget list and at most once in the no-budget list, never in both,
    and only when some expense row carries it; budget rows without expenses
    are never reported. *)
Theorem summary_lists_disjoint (s : store) :
  let r := fst (budget_summary s) in
  NoDup (map (fun e => fst (fst e)) (sm_over_budget_categories r))
  /\ NoDup (map fst (sm_no_budget_categories r))
  /\ (forall c x y x',
        In (c, x, y) (sm_over_budget_categories r) ->
        ~ In (c, x') (sm_no_budget_categories r))
  /\ (forall c,
        In c (map (fun e => fst (fst e)) (sm_over_budget_categories r))
        \/ In c (map fst (sm_no_budget_categories r)) ->
        exists row, In row (expenses s) /\ e_category row = c).
Proof.
  intros r. subst r. rewrite budget_summary_unfold. cbn [fst]. cbv zeta.
  cbn [sm_no_budget_categories sm_over_budget_categories].
  assert (Hnd : NoDup (map fst (Sql.select_expenses_by_category s)))
    by (rewrite expense_groups_keys; apply NoDup_sort_texts, NoDup_distinct).
  split; [|split; [|split]].
  - exact (entries_NoDup _ _ fst (fun e => fst (fst e)) (over_entry s)
             (over_entry_small s) _ Hnd).
  - exact (entries_NoDup _ _ fst fst (no_budget_entry s)
             (no_budget_entry_small s) _ Hnd).
  - intros c x y x' H1 H2.
    apply in_over_entries in H1. apply in_no_budget_entries in H2.
    destruct H1 as (_ & E1 & _). destruct H2 as (_ & E2). congruence.
  - intros c [H|H].
    + apply in_map_iff in H. destruct H as [e [<- He]].
      apply (entries_keys _ _ fst (fun e => fst (fst e)) (over_entry s)
               (over_entry_small s)) in He.
      rewrite expense_groups_keys, in_sort_texts, in_distinct, in_map_iff
        in He.
      destruct He as [row [Hc Hr]]. now exists row.
    + apply in_map_iff in H. destruct H as [e [<- He]].
      apply (entries_keys _ _ fst fst (no_budget_entry s)
               (no_budget_entry_small s)) in He.
      rewrite expense_groups_keys, in_sort_texts, in_distinct, in_map_iff
        in He.
      destruct He as [row [Hc Hr]]. now exists row.
Qed.

(** A budget without expenses is not reported, however small. *)
Example orphan_budget_not_reported :
  let s := with_budgets seed (budgets seed ++ [mk_budget 6 "Holidays" 0]) in
  sm_over_budget_categories (fst (budget_summary s)) = []
  /\ sm_no_budget_categories (fst (budget_summary s)) = [].
Proof. vm_compute. split; reflexivity. Qed.

(** X14: with no income rows and no expense rows the status reads "over
    budget", whatever the budgets and goals are: both sums come back NULL,
    become 0.0, and the balance 0.0 is not above 0. *)
Theorem empty_tables_over_budget (s : store) :
  income s = [] -> expenses s = [] ->
  let r := fst (budget_summary s) in
  sm_total_income r = 0 /\ sm_total_expenses r = 0 /\ sm_balance r = 0
  /\ sm_budget_status r = "over budget"
  /\ sm_over_budget_categories r = [] /\ sm_no_budget_categories r = [].
Proof.
  intros Hi He r. subst r. rewrite budget_summary_unfold. cbn [fst]. cbv zeta.
  unfold Sql.select_sum_income, Sql.select_sum_expenses,
    Sql.select_expenses_by_category.
  rewrite Hi, He. simpl.
  unfold budget_status_of.
  replace (PrimFloat.ltb 0 (0 - 0)) with false by reflexivity.
  rewrite andb_false_r. repeat split; reflexivity.
Qed.

Lemma empty_tables_over_budget_witness :
  sm_budget_status
    (fst (budget_summary
            (mk_store [] [] (budgets seed) (financial_goals seed))))
  = "over budget".
Proof.
  exact (proj1 (proj2 (proj2 (proj2
    (empty_tables_over_budget
       (mk_store [] [] (budgets seed) (financial_goals seed))
       eq_refl eq_refl))))).
Defined.

(** ** Financial goals *)

(** X15: [set_financial_goal] never refuses: in a table whose rowids are
    positive and below the largest rowid, and for storable amounts, it
    appends one row, with the target and the saved amount as the columns
    store them, under a rowid larger than every rowid of the table, even
    when rows with the same goal text exist; the other tables are
    unchanged, the text is then among the goals the prompts offer, and a
    goal entered with saved >= target is reported as achieved by the next
    summary. *)
Theorem set_financial_goal_appends (s : store) (g : string) (t v : float) :
  rowids_in_range (map g_id (financial_goals s)) ->
  storable t -> storable v ->
  let s1 := snd (set_financial_goal g t v s) in
  fst (set_financial_goal g t v s) = GoalSet
  /\ (exists id : Z,
        financial_goals s1
        = financial_goals s ++ [mk_goal id g (sql_real t) (sql_real v)]
        /\ (0 < id <= max_rowid)%Z
        /\ (forall r, In r (financial_goals s) -> (g_id r < id)%Z))
  /\ expenses s1 = expenses s /\ income s1 = income s
  /\ budgets s1 = budgets s
  /\ In g (Sql.select_distinct_goals s1)
  /\ (PrimFloat.leb t v = true ->
      In g (sm_achieved_goals (fst (budget_summary s1)))).
Proof.
  intros Hr _ _ s1. subst s1. simpl.
  split; [reflexivity|]. split; [|repeat split].
  - exists (next_id (map g_id (financial_goals s))).
    split; [reflexivity|].
    split; [split; [apply next_id_above | now apply next_id_in_range]|].
    intros r Hin.
    pose proof (proj2 (next_id_above (map g_id (financial_goals s)))) as H.
    rewrite Forall_forall in H. apply H. now apply in_map.
  - unfold Sql.select_distinct_goals. simpl.
    rewrite in_distinct, map_app. apply in_or_app. right. now left.
  - intros Hle. rewrite budget_summary_unfold. cbn [fst]. cbv zeta.
    cbn [sm_achieved_goals]. unfold Sql.select_achieved_goals. simpl.
    rewrite filter_app, map_app. apply in_or_app. right.
    simpl. unfold Sql.goal_achieved at 1. simpl.
    rewrite FloatOrder.leb_sql_real, Hle. now left.
Qed.

Lemma set_financial_goal_appends_witness :
  rowids_in_range (map g_id (financial_goals seed))
  /\ storable 800 /\ storable 900
  /\ financial_goals (snd (set_financial_goal "Vacation" 800 900 seed))
     = financial_goals seed ++ [mk_goal 6 "Vacation" 800 900]
  /\ In "Vacation"
       (sm_achieved_goals
          (fst (budget_summary
                  (snd (set_financial_goal "Vacation" 800 900 seed))))).
Proof.
  pose proof (proj2 (proj2 (proj2 seed_rowids_in_range))) as Hr.
  assert (Ht : storable 800) by reflexivity.
  assert (Hv : storable 900) by reflexivity.
  pose proof (set_financial_goal_appends seed "Vacation" 800 900 Hr Ht Hv)
    as (_ & _ & _ & _ & _ & _ & Hach).
  split; [exact Hr|]. split; [exact Ht|]. split; [exact Hv|].
  split; [reflexivity|]. apply Hach. reflexivity.
Defined.

(** The same text entered twice gives two rows. *)
Example set_financial_goal_duplicate :
  map g_goal
    (financial_goals
       (snd (set_financial_goal "Vacation" 800 20 seed)))
  = ["Buy a car"; "Vacation"; "Emergency fund"; "Home renovation";
     "New laptop"; "Vacation"].
Proof. reflexivity. Qed.

Lemma achieved_after_update (g name : string) (v : float)
    (rows : list goal_row) :
  In name
    (map g_goal
       (filter Sql.goal_achieved
          (map (fun r => if String.eqb (g_goal r) g
                         then mk_goal (g_id r) (g_goal r)
                                (g_target_amount r) v
                         else r) rows)))
  <-> exists r, In r rows /\ g_goal r = name
                /\ (if String.eqb name g
                    then PrimFloat.leb (g_target_amount r) v
                    else Sql.goal_achieved r) = true.
Proof.
  rewrite in_map_iff. split.
  - intros [r' [Hn Hr']]. apply filter_In in Hr'. destruct Hr' as [Hin Ha].
    apply in_map_iff in Hin. destruct Hin as [r [Er Hr]].
    exists r. split; [exact Hr|].
    destruct (String.eqb (g_goal r) g) eqn:Eg; subst r'; simpl in *.
    + split; [exact Hn|]. rewrite <- Hn, Eg. exact Ha.
    + split; [exact Hn|]. rewrite <- Hn, Eg. exact Ha.
  - intros [r (Hr & Hn & Ha)]. rewrite <- Hn in Ha.
    exists (if String.eqb (g_goal r) g
            then mk_goal (g_id r) (g_goal r) (g_target_amount r) v else r).
    split.
    + now destruct (String.eqb (g_goal r) g).
    + apply filter_In. split.
      * apply in_map_iff. now exists r.
      * now destruct (String.eqb (g_goal r) g).
Qed.

(** X16: after [update_financial_goal] for an offered goal text with a new
    saved amount, the summary reports that text as achieved exactly when
    some row with the text has a target the new amount reaches; every other
    goal text is reported as before. *)
Theorem summary_after_update_goal (s : store) (g : string) (v : float) :
  In g (Sql.select_distinct_goals s) ->
  let r := fst (budget_summary (snd (update_financial_goal g v s))) in
  fst (update_financial_goal g v s) = GoalUpdated
  /\ (In g (sm_achieved_goals r) <->
      exists row, In row (financial_goals s) /\ g_goal row = g
                  /\ PrimFloat.leb (g_target_amount row) v = true)
  /\ (forall g', g' <> g ->
        (In g' (sm_achieved_goals r) <->
         In g' (sm_achieved_goals (fst (budget_summary s))))).
Proof.
  intros Hoff r. subst r.
  rewrite (update_financial_goal_offered g v s Hoff). cbn [fst snd].
  rewrite !budget_summary_unfold. cbn [fst]. cbv zeta.
  cbn [sm_achieved_goals]. unfold Sql.select_achieved_goals.
  cbn [update_amount Sql.update_financial_goals financial_goals].
  split; [reflexivity|]. split.
  - rewrite achieved_after_update, String.eqb_refl.
    split; intros [row (Hr & Hn & Ha)]; exists row;
      (split; [exact Hr|]; split; [exact Hn|]).
    + now rewrite FloatOrder.leb_sql_real_r in Ha.
    + now rewrite FloatOrder.leb_sql_real_r.
  - intros g' N. rewrite achieved_after_update.
    destruct (String.eqb_spec g' g) as [E|_]; [contradiction|].
    rewrite in_map_iff. split.
    + intros [row (Hr & Hn & Ha)]. exists row.
      split; [exact Hn|]. now apply filter_In.
    + intros [row [Hn Hr]]. apply filter_In in Hr. exists row. tauto.
Qed.

Lemma summary_after_update_goal_witness :
  In "Vacation" (Sql.select_distinct_goals seed)
  /\ In "Vacation"
       (sm_achieved_goals
          (fst (budget_summary
                  (snd (update_financial_goal "Vacation" 5000 seed))))).
Proof.
  assert (Hoff : In "Vacation" (Sql.select_distinct_goals seed))
    by (vm_compute; tauto).
  split; [exact Hoff|].
  apply (proj1 (proj2 (summary_after_update_goal seed "Vacation" 5000 Hoff))).
  exists (mk_goal 2 "Vacation" 5000 1500).
  split; [simpl; tauto|]. split; reflexivity.
Defined.

(** X17: [delete_financial_goal] removes every row with the goal text, also
    when several rows share it, and nothing else; the text is then no
    longer offered by the prompts nor reported as achieved. *)
Theorem delete_financial_goal_all (s : store) (g : string) :
  let s1 := snd (delete_financial_goal g s) in
  (forall r, In r (financial_goals s1) <->
             In r (financial_goals s) /\ g_goal r <> g)
  /\ expenses s1 = expenses s /\ income s1 = income s
  /\ budgets s1 = budgets s
  /\ ~ In g (Sql.select_distinct_goals s1)
  /\ ~ In g (sm_achieved_goals (fst (budget_summary s1))).
Proof.
  intros s1. subst s1. simpl.
  assert (Hrows : forall r,
             In r (filter (fun r => negb (String.eqb (g_goal r) g))
                     (financial_goals s)) <->
             In r (financial_goals s) /\ g_goal r <> g).
  { intros r. rewrite filter_In, negb_true_iff, String.eqb_neq. tauto. }
  split; [exact Hrows|]. repeat split.
  - unfold Sql.select_distinct_goals. simpl.
    rewrite in_distinct, in_map_iff. intros [r [Hg Hr]].
    apply Hrows in Hr. tauto.
  - rewrite budget_summary_unfold. cbn [fst]. cbv zeta.
    cbn [sm_achieved_goals]. unfold Sql.select_achieved_goals. simpl.
    rewrite in_map_iff. intros [r [Hg Hr]]. apply filter_In in Hr.
    destruct Hr as [Hr _]. apply Hrows in Hr. tauto.
Qed.

(** ** The category prompt *)

Lemma existsb_eqb_In (x : string) (l : list string) :
  existsb (String.eqb x) l = true <-> In x l.
Proof.
  rewrite existsb_exists. split.
  - intros [y [Hy E]]. apply String.eqb_eq in E. now subst y.
  - intros H. exists x. split; [exact H | apply String.eqb_refl].
Qed.

Lemma validate_input_spec (normalize : string -> string)
    (categories : list string) (lines : list (option string)) (k : nat) :
  exists bad,
    snd (fst (validate_input normalize categories lines k))
    = (k + List.length bad)%nat
    /\ (forall l, In l bad -> ~ In (normalize l) categories)
    /\ match fst (fst (validate_input normalize categories lines k)) with
       | Some c =>
           In c categories
           /\ exists line,
                lines = map Some bad ++ Some line
                          :: snd (validate_input normalize categories lines k)
                /\ c = normalize line
       | None =>
           (lines = map Some bad
            /\ snd (validate_input normalize categories lines k) = [])
           \/ lines = map Some bad ++ None
                        :: snd (validate_input normalize categories lines k)
       end.
Proof.
  revert k. induction lines as [|[line|] lines IH]; intros k; simpl.
  - exists []. simpl. repeat split; [lia | tauto | now left].
  - destruct (existsb (String.eqb (normalize line)) categories) eqn:E.
    + exists []. simpl. repeat split; [lia | tauto | |].
      * now apply existsb_eqb_In.
      * now exists line.
    + destruct (IH (S k)) as [bad (Hn & Hbad & Hres)].
      exists (line :: bad). simpl. split; [lia|]. split.
      * intros l [<-|Hl]; [|now apply Hbad].
        rewrite <- existsb_eqb_In, E. discriminate.
      * destruct (fst (fst (validate_input normalize categories lines
                              (S k)))) as [c|].
        -- destruct Hres as [Hc [l0 [Hl Hc']]]. split; [exact Hc|].
           exists l0. split; [now rewrite Hl at 1 | exact Hc'].
        -- destruct Hres as [[Hl Hr]|Hl].
           ++ left. split; [now rewrite Hl at 1 | exact Hr].
           ++ right. now rewrite Hl at 1.
  - exists []. simpl. repeat split; [lia | tauto | now right].
Qed.

(** X18: whatever standard input holds, [validate_category_input] for the
    expenses table rejects, with one "Invalid category" message each, the
    lines whose normalised form names no expense category, up to the first
    line that names one or to the first read that fails.  In the first
    case it returns that line's normalised form, so some expense row
    carries the returned text and [insert_expense] would refuse it; in the
    second it returns [None].  With an empty expenses table it accepts no
    line: it always returns [None]. *)
Theorem validate_category_input_returns_existing
    (normalize : string -> string) (lines : list (option string))
    (s : store) :
  let r := validate_category_input_expenses normalize lines s in
  (exists bad,
     snd (fst r) = List.length bad
     /\ (forall l, In l bad ->
           ~ In (normalize l) (Sql.select_distinct_expense_categories s))
     /\ match fst (fst r) with
        | Some c =>
            (exists row, In row (expenses s) /\ e_category row = c)
            /\ (forall a d,
                  fst (insert_expense c a d s) = DuplicateCategory)
            /\ exists line,
                 lines = map Some bad ++ Some line :: snd r
                 /\ c = normalize line
        | None =>
            (lines = map Some bad /\ snd r = [])
            \/ lines = map Some bad ++ None :: snd r
        end)
  /\ (expenses s = [] -> fst (fst r) = None).
Proof.
  intros r. subst r. unfold validate_category_input_expenses. split.
  - destruct (validate_input_spec normalize
                (Sql.select_distinct_expense_categories s) lines 0)
      as [bad (Hn & Hbad & Hres)].
    exists bad. split; [exact Hn|]. split; [exact Hbad|].
    destruct (fst (fst (validate_input normalize
                          (Sql.select_distinct_expense_categories s)
                          lines 0))) as [c|]; [|exact Hres].
    destruct Hres as [Hc Hline].
    assert (Hrow : exists row, In row (expenses s) /\ e_category row = c).
    { unfold Sql.select_distinct_expense_categories in Hc.
      rewrite in_distinct, in_map_iff in Hc.
      destruct Hc as [row [E Hr]]. now exists row. }
    split; [exact Hrow|]. split; [|exact Hline].
    intros a d. unfold insert_expense, bind, query.
    now rewrite (fetchone_select_expense_category c s Hrow).
  - intros He. unfold Sql.select_distinct_expense_categories.
    rewrite He. simpl. generalize 0%nat.
    induction lines as [|[l|] lines IH]; simpl; intros k;
      [reflexivity | apply IH | reflexivity].
Qed.

(** At the seed data: Rent is rejected and Dining accepted; a failed read
    after Rent makes the function return [None], with Dining still to be
    read by the next prompt. *)
Example validate_category_input_at_seed :
  validate_category_input_expenses (fun l => l)
    [Some "Rent"; Some "Dining"; Some "Groceries"] seed
  = (Some "Dining", 1%nat, [Some "Groceries"])
  /\ validate_category_input_expenses (fun l => l)
       [Some "Rent"; None; Some "Dining"] seed
     = (None, 1%nat, [Some "Dining"]).
Proof. split; reflexivity. Qed.

(** ** Undoing an insert, and what the other submenus leave alone *)

Lemma filter_none {A : Type} (keep : A -> bool) (rows : list A) :
  (forall x, In x rows -> keep x = false) -> filter keep rows = [].
Proof.
  induction rows as [|x rows IH]; simpl; intros H; [reflexivity|].
  rewrite (H x (or_introl eq_refl)). apply IH. intros y Hy. apply H.
  now right.
Qed.

(** X19: adding a new expense category and deleting it again gives back
    the store one started from, provided every budget row belongs to a
    category with an expense row, so that no budget row is left over for
    the new text. *)
Theorem insert_then_delete_expense (s : store) (c : string) (a : float)
    (d : string) :
  (forall r, In r (expenses s) -> e_category r <> c) ->
  budgets_have_expense s ->
  snd (delete_expense c (snd (insert_expense c a d s))) = s.
Proof.
  intros Hfresh Hb.
  unfold insert_expense, bind, query.
  rewrite (fetchone_select_expense_category_none c s Hfresh).
  destruct s as [es ins bs gs]. simpl in *.
  unfold Sql.delete_from_budgets, Sql.delete_from_expenses,
    Sql.insert_into_expenses. simpl. f_equal.
  - rewrite filter_app. simpl. rewrite String.eqb_refl. simpl.
    rewrite app_nil_r. apply filter_all. intros r Hr.
    apply negb_true_iff, String.eqb_neq. now apply Hfresh.
  - apply filter_all. intros b Hin.
    apply negb_true_iff, String.eqb_neq. intros E.
    specialize (Hb b Hin). rewrite E in Hb. apply in_map_iff in Hb.
    destruct Hb as [r [Hc Hr]]. exact (Hfresh r Hr Hc).
Qed.

Lemma insert_then_delete_expense_witness :
  (forall r, In r (expenses seed) -> e_category r <> "Rent")
  /\ budgets_have_expense seed
  /\ snd (delete_expense "Rent"
            (snd (insert_expense "Rent" 700 "2025-01-01" seed))) = seed.
Proof.
  assert (H1 : forall r, In r (expenses seed) -> e_category r <> "Rent").
  { simpl. intros r Hr.
    repeat (destruct Hr as [<-|Hr]; [discriminate|]). destruct Hr. }
  assert (H2 : budgets_have_expense seed).
  { intros b Hb. simpl in Hb.
    repeat (destruct Hb as [<-|Hb]; [simpl; tauto|]). destruct Hb. }
  split; [exact H1|]. split; [exact H2|].
  exact (insert_then_delete_expense seed "Rent" 700 "2025-01-01" H1 H2).
Defined.

Lemma single_row_of_key {R : Type} (key : R -> string) (rows : list R)
    (r : R) :
  NoDup (map key rows) -> In r rows ->
  filter (fun x => String.eqb (key x) (key r)) rows = [r].
Proof.
  induction rows as [|x rows IH]; simpl; intros Hnd Hin; [contradiction|].
  apply NoDup_cons_iff in Hnd. destruct Hnd as [Hx Hnd].
  destruct Hin as [->|Hin].
  - rewrite String.eqb_refl. f_equal. apply filter_none.
    intros y Hy. apply String.eqb_neq. intros E. apply Hx.
    rewrite <- E. now apply in_map.
  - destruct (String.eqb_spec (key x) (key r)) as [E|_].
    + destruct Hx. rewrite E. now apply in_map.
    + now apply IH.
Qed.

(** X20: while the expense categories are unique, as in every reachable
    store, the amount the summary works with for a category is the sum SUM
    forms over its single row, 0.0 + amount, and the GROUP BY has exactly
    one group per expense row. *)
Theorem group_amount_of_single_row (s : store) :
  expense_unique s ->
  (forall r, In r (expenses s) ->
     In (e_category r, 0 + e_amount r) (Sql.select_expenses_by_category s))
  /\ (forall c x, In (c, x) (Sql.select_expenses_by_category s) ->
        exists r, In r (expenses s) /\ e_category r = c
                  /\ x = 0 + e_amount r)
  /\ List.length (Sql.select_expenses_by_category s)
     = List.length (expenses s).
Proof.
  intros Hu.
  assert (Hsum : forall r, In r (expenses s) ->
             Sql.group_sum (e_category r) (expenses s) = 0 + e_amount r).
  { intros r Hr. unfold Sql.group_sum.
    rewrite (single_row_of_key e_category (expenses s) r Hu Hr).
    reflexivity. }
  split; [|split].
  - intros r Hr. apply expense_groups_spec. split; [now exists r|].
    symmetry. now apply Hsum.
  - intros c x H. apply expense_groups_spec in H.
    destruct H as [[r [Hr Hc]] ->]. exists r. subst c. auto.
  - unfold Sql.select_expenses_by_category. rewrite length_map.
    assert (Hd : forall l, NoDup l -> distinct l = l).
    { induction l as [|y l IH]; simpl; intros Hn; [reflexivity|].
      apply NoDup_cons_iff in Hn. destruct Hn as [Hy Hn].
      rewrite (IH Hn). f_equal. apply filter_all. intros z Hz.
      apply negb_true_iff, String.eqb_neq. intros ->. contradiction. }
    now rewrite length_sort_texts, (Hd _ Hu), length_map.
Qed.

Lemma group_amount_of_single_row_witness :
  expense_unique seed
  /\ In ("Transport", 0 + 20) (Sql.select_expenses_by_category seed).
Proof.
  assert (Hu : expense_unique seed).
  { unfold expense_unique. simpl.
    repeat (constructor; [simpl; intuition discriminate|]). constructor. }
  split; [exact Hu|].
  exact (proj1 (group_amount_of_single_row seed Hu)
           (mk_expense 3 "Transport" 20 "2024-12-03")
           (or_intror (or_intror (or_introl eq_refl)))).
Defined.

Lemma income_or_goal_choice_tables (o : op) (s : store) :
  income_or_goal_choice o = true ->
  expenses (run o s) = expenses s /\ budgets (run o s) = budgets s.
Proof.
  destruct o; simpl; try discriminate; intros _; try (split; reflexivity).
  - unfold insert_income, bind, query.
    destruct (fetchone _); split; reflexivity.
  - unfold update_financial_goal, bind, query.
    destruct (fetchone _); split; reflexivity.
Qed.

(** X21: no choice of the income submenu or of the financial-goals submenu
    changes what the summary says about expenses and budgets: the total
    expenses, the total budgeted and both category lists stay the same. *)
Theorem income_and_goal_choices_keep_categories (o : op) (s : store) :
  income_or_goal_choice o = true ->
  let r := fst (budget_summary s) in
  let r' := fst (budget_summary (run o s)) in
  sm_total_expenses r' = sm_total_expenses r
  /\ sm_total_budgeted r' = sm_total_budgeted r
  /\ sm_over_budget_categories r' = sm_over_budget_categories r
  /\ sm_no_budget_categories r' = sm_no_budget_categories r.
Proof.
  intros Ho r r'. subst r r'.
  destruct (income_or_goal_choice_tables o s Ho) as [He Hb].
  rewrite !budget_summary_unfold. cbn [fst]. cbv zeta.
  cbn [sm_total_expenses sm_total_budgeted sm_over_budget_categories
       sm_no_budget_categories].
  assert (Eg : Sql.select_expenses_by_category (run o s)
               = Sql.select_expenses_by_category s)
    by (unfold Sql.select_expenses_by_category; now rewrite He).
  assert (Eo : forall c, budget_of c (run o s) = budget_of c s)
    by (intros c; unfold budget_of, Sql.select_budget_amount;
        now rewrite Hb).
  unfold Sql.select_sum_expenses, Sql.select_sum_budgets.
  rewrite He, Hb, Eg. repeat split.
  - apply flat_map_ext. intros row. unfold over_entry. now rewrite Eo.
  - apply flat_map_ext. intros row. unfold no_budget_entry. now rewrite Eo.
Qed.

Lemma income_and_goal_choices_keep_categories_witness :
  income_or_goal_choice (DeleteIncome "Salary") = true
  /\ sm_over_budget_categories
       (fst (budget_summary (run (DeleteIncome "Salary") seed)))
     = sm_over_budget_categories (fst (budget_summary seed)).
Proof.
  split; [reflexivity|].
  exact (proj1 (proj2 (proj2
    (income_and_goal_choices_keep_categories (DeleteIncome "Salary") seed
       eq_refl)))).
Defined.
